(** * npm-audit-action: the scanner invocation and the Markdown report

    A shallow embedding of [src/main.ts] (with the interfaces of
    [src/npm-audit.ts]) and the properties of its three functions
    [runNpmAudit], [formatNpmAuditOutput] and [run]. *)

From Stdlib Require Import String Ascii DecimalString HexadecimalString.
From Stdlib Require Import List ZArith NArith Lia Bool.
Import ListNotations.

Local Open Scope Z_scope.

(** ** JavaScript strings

    A JavaScript string is a sequence of UTF-16 code units; [indexOf],
    [slice] and [startsWith] all count in code units. *)

Definition jsstring := list N.

(** An ASCII literal as a JavaScript string. *)
Definition js (s : string) : jsstring := map N_of_ascii (list_ascii_of_string s).

Definition nl : jsstring := [10%N].
Definition dquote : jsstring := [34%N].
Definition lbrace : N := 123%N.

Definition jsstring_eqb (a b : jsstring) : bool :=
  if list_eq_dec N.eq_dec a b then true else false.

(** [s.indexOf(c)] for a one-character search string: the index of the
    first occurrence, [-1] when there is none. *)
Fixpoint indexOf (c : N) (s : jsstring) : Z :=
  match s with
  | [] => -1
  | x :: rest =>
      if N.eqb x c then 0
      else let i := indexOf c rest in if i <? 0 then -1 else i + 1
  end.

(** [s.slice(start)]: a negative [start] counts from the end of the string. *)
Definition slice (s : jsstring) (start : Z) : jsstring :=
  let len := Z.of_nat (length s) in
  let from := if start <? 0 then Z.max (len + start) 0 else Z.min start len in
  skipn (Z.to_nat from) s.

(** [s.startsWith(p)]. *)
Fixpoint startsWith (s p : jsstring) : bool :=
  match p, s with
  | [], _ => true
  | _ :: _, [] => false
  | c :: p', d :: s' => N.eqb c d && startsWith s' p'
  end.

(** ** JavaScript numbers and values

    The program performs no arithmetic on the numbers it reads from the
    tool: it interpolates them into text and tests them for truthiness.
    An integral number is kept as its value; any other number (a CVSS
    score such as 6.5) is kept as the text [Number::toString] yields for
    it, and is neither zero nor NaN. *)

Inductive Number :=
| NInt (z : Z)
| NFrac (shown : jsstring).

Definition Number_toString (n : Number) : jsstring :=
  match n with
  | NInt z => js (DecimalString.NilZero.string_of_int (Z.to_int z))
  | NFrac shown => shown
  end.

(** The length of an array, as interpolated by a template literal. *)
Definition length_toString {A} (l : list A) : jsstring :=
  Number_toString (NInt (Z.of_nat (length l))).

(** What a field of parsed JSON (or a local variable) can hold.  The
    content of an object or array is not observed where this type is used. *)
Inductive JsValue :=
| JsUndefined
| JsNull
| JsBoolean (b : bool)
| JsNumber (n : Number)
| JsString (s : jsstring)
| JsObject.

(** Truthiness. *)
Definition ToBoolean (v : JsValue) : bool :=
  match v with
  | JsUndefined | JsNull => false
  | JsBoolean b => b
  | JsNumber (NInt z) => negb (z =? 0)
  | JsNumber (NFrac _) => true
  | JsString s => match s with [] => false | _ => true end
  | JsObject => true
  end.

(** An exception value; the program reads only its [message]. *)
Record Error := mkError { message : jsstring }.

(** ** The data model of [npm-audit.ts] *)

Inductive Severity := SevInfo | SevLow | SevModerate | SevHigh | SevCritical.

(** The string a [Severity] is at run time. *)
Definition Severity_toString (s : Severity) : jsstring :=
  match s with
  | SevInfo => js "info"
  | SevLow => js "low"
  | SevModerate => js "moderate"
  | SevHigh => js "high"
  | SevCritical => js "critical"
  end.

Module Cvss.
Record t := mk { score : Number; vectorString : jsstring }.
End Cvss.

Module VulnerabilityReport.
Record t := mk {
  source : Number;
  name : jsstring;
  dependency : jsstring;
  title : jsstring;
  url : jsstring;
  severity : Severity;
  cvss : option Cvss.t;            (* [cvss?: ...] *)
  range : jsstring
}.
End VulnerabilityReport.

(** An element of [via]: [VulnerabilityReport | string]. *)
Inductive Via :=
| ViaReport (r : VulnerabilityReport.t)
| ViaString (s : jsstring).

Module Vulnerability.
(** [fixAvailable] is tested with ['fixAvailable' in data] and for
    truthiness, so the field may be absent ([None]) and holds whatever the
    tool printed there. *)
Record t := mk {
  name : jsstring;
  severity : Severity;
  isDirect : bool;
  fixAvailable : option JsValue;
  via : list Via;
  range : jsstring;
  nodes : list jsstring
}.
End Vulnerability.

Module Metadata.
Record dependencies_t := mkDependencies {
  prod : Number; dev : Number; optional : Number;
  peer : Number; peerOptional : Number; total : Number
}.
Record t := mk {
  vulnerabilities : Severity -> Number;
  vulnerabilities_total : Number;
  dependencies : dependencies_t
}.
End Metadata.

Module NPMAudit.
(** [vulnerabilities] is a [Record<string, Vulnerability>]: the object's
    properties, in the order [Object.values] enumerates them. *)
Record t := mk {
  auditReportVersion : Number;
  vulnerabilities : list (jsstring * Vulnerability.t);
  metadata : Metadata.t
}.
End NPMAudit.

Module NPMAuditFix.
Record t := mk {
  added : Number;
  removed : Number;
  changed : Number;
  audited : Number;
  funding : Number;
  audit : NPMAudit.t
}.
End NPMAuditFix.

(** [NPMAudit | NPMAuditFix], the type [run] gives to the parsed output. *)
Inductive AuditData :=
| Audit (a : NPMAudit.t)
| AuditFix (f : NPMAuditFix.t).

Definition Object_values {A} (o : list (jsstring * A)) : list A := map snd o.

(** ** Type guards of [main.ts] *)

(** [typeof data === 'object' && 'fixAvailable' in data && data.fixAvailable];
    a [Vulnerability] is an object, so the first conjunct holds. *)
Definition isFixable (data : Vulnerability.t) : bool :=
  true &&
  match Vulnerability.fixAvailable data with
  | Some v => ToBoolean v
  | None => false
  end.

(** [typeof data === 'object' && !!data.title]. *)
Definition isReport (data : Via) : bool :=
  match data with
  | ViaString _ => false
  | ViaReport r => true && ToBoolean (JsString (VulnerabilityReport.title r))
  end.

(** ['audit' in data]. *)
Definition isNPMAuditFix (data : AuditData) : bool :=
  match data with
  | AuditFix _ => true
  | Audit _ => false
  end.

(** ** Effects

    What the program does to the outside is recorded as a trace of
    events, in the order they happen. *)

Inductive Event :=
| Debug (msg : jsstring)                        (* core.debug *)
| Info (msg : jsstring)                         (* core.info *)
| SetOutput (name : jsstring) (value : JsValue) (* core.setOutput *)
| SetFailed (msg : jsstring)                    (* core.setFailed *)
| Chdir (dir : jsstring)                        (* process.chdir *)
| Exec (command : jsstring)                     (* child_process.exec *)
| WriteFile (path : jsstring) (data : jsstring) (* fs writeFile *).

Record World := mkWorld { trace : list Event; cwd : jsstring }.

(** A computation runs in a world and ends with a value or with a thrown
    exception (a rejected promise); the events before the throw remain. *)
Definition Action (A : Type) : Type := World -> World * (Error + A).

Definition ret {A} (a : A) : Action A := fun w => (w, inr a).
Definition throw {A} (e : Error) : Action A := fun w => (w, inl e).
Definition bind {A B} (c : Action A) (k : A -> Action B) : Action B :=
  fun w =>
    match c w with
    | (w', inr a) => k a w'
    | (w', inl e) => (w', inl e)
    end.
Definition try_catch {A} (body : Action A) (handler : Error -> Action A) : Action A :=
  fun w =>
    match body w with
    | (w', inr a) => (w', inr a)
    | (w', inl e) => handler e w'
    end.
Definition emit (e : Event) : Action unit :=
  fun w => (mkWorld (trace w ++ [e]) (cwd w), inr tt).
Definition liftE {A} (r : Error + A) : Action A :=
  match r with
  | inl e => throw e
  | inr a => ret a
  end.

Declare Scope action_scope.
Delimit Scope action_scope with action.
Notation "x <- c ;; k" := (bind c (fun x => k))
  (at level 61, c at next level, right associativity) : action_scope.
Notation "c ;; k" := (bind c (fun _ => k))
  (at level 61, right associativity) : action_scope.

(** The result of one [exec] call, as handed to its callback. *)
Record ExecResult := mkExecResult {
  error : option Error;
  stdout : jsstring;
  stderr : jsstring
}.

(** The collaborators of a run: the action's inputs, the environment,
    the audit tool and the file system. *)
Record Host := mkHost {
  getInput : jsstring -> jsstring;
  getBooleanInput : jsstring -> Error + bool;
  GITHUB_WORKSPACE : option jsstring;
  (* path.resolve, from the current directory; it returns an absolute path *)
  path_resolve : jsstring -> jsstring -> jsstring;
  (* the TypeError of a Node API called with a non-string argument *)
  invalid_arg_type : jsstring -> Error;
  chdir_error : jsstring -> option Error;
  exec : jsstring -> jsstring -> ExecResult;
  JSON_parse : jsstring -> Error + AuditData;
  writeFile_error : jsstring -> jsstring -> option Error
}.

(** ** The program *)

Section Program.

(** [CSS.escape] of the [css.escape] package. *)
Variable CSS_escape : jsstring -> jsstring.

Variable host : Host.

Local Open Scope action_scope.

Definition ellipsis : jsstring := [8230%N].
Definition rotating_light : jsstring := [55357%N; 57000%N].

(** [exec(command, callback)]: the tool runs in the current directory and
    the callback receives its outcome. *)
Definition exec_await (command : jsstring) : Action ExecResult :=
  fun w => (mkWorld (trace w ++ [Exec command]) (cwd w), inr (exec host (cwd w) command)).

(** The command line [`npm audit --json ${fix ? 'fix' : ''}`]. *)
Definition auditCommand (fix_ : bool) : jsstring :=
  js "npm audit --json " ++ (if fix_ then js "fix" else []).

(** Run "npm audit" and return the stdout of that operation. *)
Definition runNpmAudit (fix_ : bool) : Action jsstring :=
  emit (Debug (js "Running npm audit " ++ (if fix_ then js "fix" else []) ++ ellipsis)) ;;
  r <- exec_await (auditCommand fix_) ;;
  (if ToBoolean (JsString (stderr r))
   then emit (Debug (js "[npm audit]: " ++ stderr r))
   else ret tt) ;;
  match error r with
  | Some e => throw e
  | None => ret (slice (stdout r) (indexOf lbrace (stdout r)))
  end.

(** [String(via)], the conversion a template literal and [CSS.escape]
    apply to an element of [via]. *)
Definition Via_toString (via : Via) : jsstring :=
  match via with
  | ViaString s => s
  | ViaReport _ => js "[object Object]"
  end.

(** [info.cvss?.score]. *)
Definition cvss_score (info : VulnerabilityReport.t) : JsValue :=
  match VulnerabilityReport.cvss info with
  | Some c => JsNumber (Cvss.score c)
  | None => JsUndefined
  end.

(** [${v}] in a template literal. *)
Definition JsValue_toString (v : JsValue) : jsstring :=
  match v with
  | JsUndefined => js "undefined"
  | JsNull => js "null"
  | JsBoolean b => if b then js "true" else js "false"
  | JsNumber n => Number_toString n
  | JsString s => s
  | JsObject => js "[object Object]"
  end.

(** Body of the first loop of [formatNpmAuditOutput]. *)
Definition updatedDependency (output : jsstring) (vul : Vulnerability.t) : jsstring :=
  output ++ js "* [" ++ Vulnerability.name vul ++ js "](#user-content-"
         ++ CSS_escape (Vulnerability.name vul) ++ js ")" ++ nl.

(** The three lines taken from a structured report. *)
Definition reportLines (output : jsstring) (info : VulnerabilityReport.t) : jsstring :=
  let cvss :=
    if ToBoolean (cvss_score info)
    then js " (CVSS " ++ JsValue_toString (cvss_score info) ++ js ")"
    else [] in
  let output := output ++ js "* " ++ VulnerabilityReport.title info ++ nl in
  let output :=
    output ++ js "* Severity: **" ++ Severity_toString (VulnerabilityReport.severity info)
           ++ js "**"
           ++ (if jsstring_eqb (Severity_toString (VulnerabilityReport.severity info))
                               (js "critical")
               then js " " ++ rotating_light else [])
           ++ cvss ++ nl in
  output ++ js "* Reference: [" ++ VulnerabilityReport.url info ++ js "]("
         ++ VulnerabilityReport.url info ++ js ")" ++ nl.

(** The lines written when [via] holds no structured report. *)
Definition causedByLines (output : jsstring) (vias : list Via) : jsstring :=
  let output := output ++ js "* Caused by vulnerable dependency:" ++ nl in
  fold_left
    (fun output via =>
       output ++ js "  * [" ++ Via_toString via ++ js "](#user-content-"
              ++ CSS_escape (Via_toString via) ++ js ")" ++ nl)
    vias output.

(** Body of the second loop of [formatNpmAuditOutput]. *)
Definition fixedVulnerability (output : jsstring) (vul : Vulnerability.t) : jsstring :=
  let info := find isReport (Vulnerability.via vul) in
  let output :=
    output ++ nl ++ js "### " ++ Vulnerability.name vul
           ++ js " <a href=" ++ dquote ++ js "#user-content-"
           ++ CSS_escape (Vulnerability.name vul) ++ dquote
           ++ js " id=" ++ dquote ++ CSS_escape (Vulnerability.name vul) ++ dquote
           ++ js ">#</a>" ++ nl in
  let output :=
    match info with
    | Some (ViaReport info) => reportLines output info
    | Some (ViaString _) | None => causedByLines output (Vulnerability.via vul)
    end in
  let output := output ++ js "* Affected versions: " ++ Vulnerability.range vul ++ nl in
  let output := output ++ js "* Package usage:" ++ nl in
  fold_left (fun output node => output ++ js "  * `" ++ node ++ js "`" ++ nl)
            (Vulnerability.nodes vul) output.

(** The value of the local variable [output] when control reaches the
    end of [formatNpmAuditOutput]. *)
Definition output_at_end (data : NPMAudit.t) : jsstring :=
  let fixable := filter isFixable (Object_values (NPMAudit.vulnerabilities data)) in
  let output := js "# Audit report" ++ nl in
  let output :=
    output ++ nl ++ js "This audit fix resolves " ++ length_toString fixable
           ++ js " of the total "
           ++ length_toString (Object_values (NPMAudit.vulnerabilities data))
           ++ js " vulnerabilities found in your project." ++ nl
           ++ nl ++ js "## Updated dependencies" ++ nl in
  let output := fold_left updatedDependency fixable output in
  let output := output ++ js "## Fixed vulnerabilities" ++ nl in
  fold_left fixedVulnerability fixable output.

(** Format "npm audit --json" output as Markdown.  Only the branch for an
    empty [fixable] has a [return] statement; after the loops the function
    body ends, and the call yields [undefined]. *)
Definition formatNpmAuditOutput (data : NPMAudit.t) : Action JsValue :=
  let fixable := filter isFixable (Object_values (NPMAudit.vulnerabilities data)) in
  emit (Info (js "Found " ++ length_toString fixable ++ js " fixable issues")) ;;
  let output := js "# Audit report" ++ nl in
  if (length fixable =? 0)%nat then
    ret (JsString (output ++ js "No fixable problems found ("
                          ++ length_toString (Object_values (NPMAudit.vulnerabilities data))
                          ++ js " unfixable)"))
  else
    let output := output_at_end data in
    ret JsUndefined.

(** [resolvePath(p)]: [path.resolve] throws a [TypeError] when its
    argument is [undefined]. *)
Definition resolvePath (p : option jsstring) : Action jsstring :=
  fun w =>
    match p with
    | Some p => (w, inr (path_resolve host (cwd w) p))
    | None => (w, inl (invalid_arg_type host (js "paths[0]")))
    end.

Definition chdir (dir : jsstring) : Action unit :=
  fun w =>
    match chdir_error host dir with
    | Some e => (w, inl e)
    | None => (mkWorld (trace w ++ [Chdir dir]) dir, inr tt)
    end.

(** [writeFile(path, data)]: Node accepts a string (or a buffer) as data
    and throws a [TypeError] for [undefined]. *)
Definition writeFile (path : jsstring) (data : JsValue) : Action unit :=
  match data with
  | JsString s =>
      fun w =>
        match writeFile_error host path s with
        | Some e => (w, inl e)
        | None => (mkWorld (trace w ++ [WriteFile path s]) (cwd w), inr tt)
        end
  | _ => throw (invalid_arg_type host (js "data"))
  end.

(** [a || b] on an input string and an environment variable. *)
Definition or_env (a : jsstring) (b : option jsstring) : option jsstring :=
  if ToBoolean (JsString a) then Some a else b.

(** The [if (isNPMAuditFix(data))] block of [run]: the envelope is
    reported and replaced by the audit it carries. *)
Definition unwrapAuditFix (data : AuditData) : Action NPMAudit.t :=
  match data with
  | AuditFix data =>
      emit (Info (js "[npm audit] Added   " ++ Number_toString (NPMAuditFix.added data)
                     ++ js " packages")) ;;
      emit (Info (js "[npm audit] Removed " ++ Number_toString (NPMAuditFix.removed data)
                     ++ js " packages")) ;;
      emit (Info (js "[npm audit] Changed " ++ Number_toString (NPMAuditFix.changed data)
                     ++ js " packages")) ;;
      emit (Info (js "[npm audit] Audited " ++ Number_toString (NPMAuditFix.audited data)
                     ++ js " packages")) ;;
      ret (NPMAuditFix.audit data)
  | Audit data => ret data
  end.

(** The three counters of [run]. *)
Definition setIssueOutputs (data : NPMAudit.t) : Action unit :=
  let issues := Object_values (NPMAudit.vulnerabilities data) in
  let totalIssues := Z.of_nat (length issues) in
  let fixableIssues := Z.of_nat (length (filter isFixable issues)) in
  emit (SetOutput (js "issues-total") (JsNumber (NInt totalIssues))) ;;
  emit (SetOutput (js "issues-fixable") (JsNumber (NInt fixableIssues))) ;;
  emit (SetOutput (js "issues-unfixable") (JsNumber (NInt (totalIssues - fixableIssues)))).

(** The [if (outputPath)] block of [run]. *)
Definition writeReport (outputPath : jsstring) (formattedOutput : JsValue) : Action unit :=
  if ToBoolean (JsString outputPath) then
    resolvedPath <- resolvePath (Some outputPath) ;;
    root <- resolvePath (GITHUB_WORKSPACE host) ;;
    if negb (startsWith resolvedPath root) then
      emit (SetFailed (js "Invalid " ++ dquote ++ js "output-path" ++ dquote))
    else
      writeFile resolvedPath formattedOutput
  else ret tt.

(** The main function for the action. *)
Definition run : Action unit :=
  try_catch
    (let wd := or_env (getInput host (js "working-directory")) (GITHUB_WORKSPACE host) in
     let outputPath := getInput host (js "output-path") in
     fix_ <- liftE (getBooleanInput host (js "fix")) ;;
     resolvedWD <- resolvePath wd ;;
     emit (Debug (js "Setting working directory to " ++ dquote ++ resolvedWD
                     ++ dquote ++ js ".")) ;;
     chdir resolvedWD ;;
     output <- runNpmAudit fix_ ;;
     data <- liftE (JSON_parse host output) ;;
     data <- unwrapAuditFix data ;;
     setIssueOutputs data ;;
     formattedOutput <- formatNpmAuditOutput data ;;
     emit (SetOutput (js "markdown") formattedOutput) ;;
     writeReport outputPath formattedOutput)
    (fun error => emit (SetFailed (message error))).

End Program.

(** ** Library functions at concrete inputs

    [CSS.escape] and [path.resolve] are not part of the repository; the
    program above takes them as parameters.  To run it on concrete inputs
    they are instantiated with the algorithms the libraries implement. *)

Module CSS.

Definition between (lo hi c : N) : bool := (N.leb lo c && N.leb c hi)%bool.

(** [codeUnit.toString(16)]. *)
Definition hex (c : N) : jsstring :=
  js (HexadecimalString.NilZero.string_of_uint (N.to_hex_uint c)).

(** The loop of the CSSOM algorithm "serialize an identifier". *)
Fixpoint escape_from (index : nat) (firstCodeUnit : N) (s : jsstring) : jsstring :=
  match s with
  | [] => []
  | codeUnit :: rest =>
      (if N.eqb codeUnit 0 then [65533%N]
       else if between 1 31 codeUnit || N.eqb codeUnit 127
               || (Nat.eqb index 0 && between 48 57 codeUnit)
               || (Nat.eqb index 1 && between 48 57 codeUnit && N.eqb firstCodeUnit 45)
       then [92%N] ++ hex codeUnit ++ [32%N]
       else if N.leb 128 codeUnit || N.eqb codeUnit 45 || N.eqb codeUnit 95
               || between 48 57 codeUnit || between 65 90 codeUnit
               || between 97 122 codeUnit
       then [codeUnit]
       else [92%N; codeUnit])
      ++ escape_from (S index) firstCodeUnit rest
  end.

Definition escape (value : jsstring) : jsstring :=
  match value with
  | [45%N] => [92%N; 45%N]
  | _ => escape_from 0 (hd 0%N value) value
  end.

End CSS.

Module Posix.

Definition slash : N := 47%N.

(** The segments between slashes; [cur] is the segment being read. *)
Fixpoint split (s cur : jsstring) : list jsstring :=
  match s with
  | [] => [cur]
  | c :: rest => if N.eqb c slash then cur :: split rest [] else split rest (cur ++ [c])
  end.

(** Drops empty and [.] segments; [..] removes the segment before it.
    [stack] holds the kept segments, last first. *)
Fixpoint normalize (segments stack : list jsstring) : list jsstring :=
  match segments with
  | [] => rev stack
  | seg :: rest =>
      if jsstring_eqb seg [] || jsstring_eqb seg (js ".") then normalize rest stack
      else if jsstring_eqb seg (js "..") then normalize rest (tl stack)
      else normalize rest (seg :: stack)
  end.

Definition segments (p : jsstring) : list jsstring := normalize (split p []) [].

Fixpoint join (l : list jsstring) : jsstring :=
  match l with
  | [] => []
  | [seg] => seg
  | seg :: rest => seg ++ [slash] ++ join rest
  end.

(** [path.resolve(p)] on POSIX, from the absolute current directory [cwd]. *)
Definition resolve (cwd p : jsstring) : jsstring :=
  let full := match p with
              | c :: _ => if N.eqb c slash then p else cwd ++ [slash] ++ p
              | [] => cwd
              end in
  [slash] ++ join (segments full).

End Posix.

(** ** A concrete host

    Workspace [ws], the given inputs, a tool that answers [result] and
    whose output parses to [parsed]; the file system accepts every write. *)
Definition hostOf (workingDirectory outputPath : jsstring) (fix_ : bool)
  (ws : jsstring) (result : ExecResult) (parsed : Error + AuditData) : Host :=
  {| getInput :=
       fun name =>
         if jsstring_eqb name (js "working-directory") then workingDirectory
         else if jsstring_eqb name (js "output-path") then outputPath
         else [];
     getBooleanInput := fun _ => inr fix_;
     GITHUB_WORKSPACE := Some ws;
     path_resolve := Posix.resolve;
     invalid_arg_type :=
       fun arg =>
         mkError (js "The " ++ dquote ++ arg ++ dquote ++ js " argument must be of type string"
                     ++ (if jsstring_eqb arg (js "data")
                         then js " or an instance of Buffer, TypedArray, or DataView"
                         else [])
                     ++ js ". Received undefined");
     chdir_error := fun _ => None;
     exec := fun _ _ => result;
     JSON_parse := fun _ => parsed;
     writeFile_error := fun _ _ => None |}.

Definition world0 : World := mkWorld [] (js "/").

(** The output of the test "Outputs only the JSON" as the specification
    quotes it. *)
Definition fixOutput : jsstring :=
  js "add foo 6.5.4 -> 6.5.5" ++ nl ++ js "add bar 0.1.0 -> 1.0.0" ++ nl
     ++ js "{" ++ nl ++ js "}".

(** A host whose tool answers [result]; nothing else matters to
    [runNpmAudit]. *)
Definition toolHost (result : ExecResult) : Host :=
  hostOf [] [] false (js "/ws") result (inl (mkError (js "Unexpected end of JSON input"))).

(** ** The pieces of the report

    The text each part of [formatNpmAuditOutput] contributes, written out
    for the statements below. *)

Section ReportPieces.

Variable CSS_escape : jsstring -> jsstring.

(** The level-3 heading of a vulnerability. *)
Definition heading (vul : Vulnerability.t) : jsstring :=
  nl ++ js "### " ++ Vulnerability.name vul
     ++ js " <a href=" ++ dquote ++ js "#user-content-"
     ++ CSS_escape (Vulnerability.name vul) ++ dquote
     ++ js " id=" ++ dquote ++ CSS_escape (Vulnerability.name vul) ++ dquote
     ++ js ">#</a>" ++ nl.

(** The range and the install locations, written for every vulnerability. *)
Definition versionsAndUsage (vul : Vulnerability.t) : jsstring :=
  js "* Affected versions: " ++ Vulnerability.range vul ++ nl
     ++ js "* Package usage:" ++ nl
     ++ concat (map (fun node => js "  * `" ++ node ++ js "`" ++ nl)
                    (Vulnerability.nodes vul)).

(** The description taken from a structured report: the CVSS score is
    written when the report has one that is truthy, that is, not zero. *)
Definition description (info : VulnerabilityReport.t) : jsstring :=
  js "* " ++ VulnerabilityReport.title info ++ nl
     ++ js "* Severity: **" ++ Severity_toString (VulnerabilityReport.severity info)
     ++ js "**"
     ++ match VulnerabilityReport.severity info with
        | SevCritical => js " " ++ rotating_light
        | _ => []
        end
     ++ match VulnerabilityReport.cvss info with
        | Some c =>
            if ToBoolean (JsNumber (Cvss.score c))
            then js " (CVSS " ++ Number_toString (Cvss.score c) ++ js ")"
            else []
        | None => []
        end
     ++ nl
     ++ js "* Reference: [" ++ VulnerabilityReport.url info ++ js "]("
     ++ VulnerabilityReport.url info ++ js ")" ++ nl.

(** The bullet of one element of [via] in the "Caused by" list. *)
Definition viaBullet (via : Via) : jsstring :=
  js "  * [" ++ Via_toString via ++ js "](#user-content-"
     ++ CSS_escape (Via_toString via) ++ js ")" ++ nl.

(** The description as the specification words it: the CVSS score is
    written whenever the report has one. *)
Definition stated_description (info : VulnerabilityReport.t) : jsstring :=
  js "* " ++ VulnerabilityReport.title info ++ nl
     ++ js "* Severity: **" ++ Severity_toString (VulnerabilityReport.severity info)
     ++ js "**"
     ++ match VulnerabilityReport.severity info with
        | SevCritical => js " " ++ rotating_light
        | _ => []
        end
     ++ match VulnerabilityReport.cvss info with
        | Some c => js " (CVSS " ++ Number_toString (Cvss.score c) ++ js ")"
        | None => []
        end
     ++ nl
     ++ js "* Reference: [" ++ VulnerabilityReport.url info ++ js "]("
     ++ VulnerabilityReport.url info ++ js ")" ++ nl.

(** The structured reports of the specification: the entries that are
    not strings and have a non-empty title; the first of them. *)
Fixpoint firstStructuredReport (vias : list Via) : option VulnerabilityReport.t :=
  match vias with
  | [] => None
  | ViaReport r :: rest =>
      match VulnerabilityReport.title r with
      | [] => firstStructuredReport rest
      | _ :: _ => Some r
      end
  | ViaString _ :: rest => firstStructuredReport rest
  end.

(** The section of one vulnerability as the specification words it; an
    entry that is no structured report counts as a package name. *)
Definition stated_section (vul : Vulnerability.t) : jsstring :=
  heading vul
  ++ match firstStructuredReport (Vulnerability.via vul) with
     | Some info => stated_description info
     | None =>
         js "* Caused by vulnerable dependency:" ++ nl
            ++ concat (map viaBullet (Vulnerability.via vul))
     end
  ++ versionsAndUsage vul.


End ReportPieces.

(** [vul] with another [via] list. *)
Definition with_via (vul : Vulnerability.t) (vias : list Via) : Vulnerability.t :=
  {| Vulnerability.name := Vulnerability.name vul;
     Vulnerability.severity := Vulnerability.severity vul;
     Vulnerability.isDirect := Vulnerability.isDirect vul;
     Vulnerability.fixAvailable := Vulnerability.fixAvailable vul;
     Vulnerability.via := vias;
     Vulnerability.range := Vulnerability.range vul;
     Vulnerability.nodes := Vulnerability.nodes vul |}.

(** ** Sample audits *)

Definition zeroMetadata : Metadata.t :=
  Metadata.mk (fun _ => NInt 0) (NInt 0)
    (Metadata.mkDependencies (NInt 0) (NInt 0) (NInt 0) (NInt 0) (NInt 0) (NInt 0)).

Definition auditOf (vulnerabilities : list (jsstring * Vulnerability.t)) : NPMAudit.t :=
  NPMAudit.mk (NInt 2) vulnerabilities zeroMetadata.

(** The finding behind [pr-content.md]. *)
Definition toughCookieReport : VulnerabilityReport.t :=
  {| VulnerabilityReport.source := NInt 1094029;
     VulnerabilityReport.name := js "tough-cookie";
     VulnerabilityReport.dependency := js "tough-cookie";
     VulnerabilityReport.title := js "tough-cookie Prototype Pollution vulnerability";
     VulnerabilityReport.url := js "https://github.com/advisories/GHSA-72xf-g2v4-qvf3";
     VulnerabilityReport.severity := SevModerate;
     VulnerabilityReport.cvss :=
       Some (Cvss.mk (NFrac (js "6.5")) (js "CVSS:3.1/AV:N/AC:L/PR:N/UI:N/S:U/C:L/I:L/A:N"));
     VulnerabilityReport.range := js "<4.1.3" |}.

Definition toughCookie : Vulnerability.t :=
  {| Vulnerability.name := js "tough-cookie";
     Vulnerability.severity := SevModerate;
     Vulnerability.isDirect := false;
     Vulnerability.fixAvailable := Some (JsBoolean true);
     Vulnerability.via := [ViaReport toughCookieReport];
     Vulnerability.range := js "<4.1.3";
     Vulnerability.nodes := [js "node_modules/tough-cookie"] |}.

Definition toughCookieAudit : NPMAudit.t := auditOf [(js "tough-cookie", toughCookie)].

(** The text of [pr-content.md]. *)
Definition prContent : jsstring :=
  js "# Audit report" ++ nl
  ++ nl
  ++ js "This audit fix resolves 1 of the total 1 vulnerabilities found in your project." ++ nl
  ++ nl
  ++ js "## Updated dependencies" ++ nl
  ++ js "* [tough-cookie](#user-content-tough-cookie)" ++ nl
  ++ js "## Fixed vulnerabilities" ++ nl
  ++ nl
  ++ js "### tough-cookie <a href=" ++ dquote ++ js "#user-content-tough-cookie" ++ dquote
  ++ js " id=" ++ dquote ++ js "tough-cookie" ++ dquote ++ js ">#</a>" ++ nl
  ++ js "* tough-cookie Prototype Pollution vulnerability" ++ nl
  ++ js "* Severity: **moderate** (CVSS 6.5)" ++ nl
  ++ js "* Reference: [https://github.com/advisories/GHSA-72xf-g2v4-qvf3](https://github.com/advisories/GHSA-72xf-g2v4-qvf3)" ++ nl
  ++ js "* Affected versions: <4.1.3" ++ nl
  ++ js "* Package usage:" ++ nl
  ++ js "  * `node_modules/tough-cookie`" ++ nl.

(** A finding without the [fixAvailable] field, as in the test "formats
    output correctly for only unfixables". *)
Definition foo : Vulnerability.t :=
  {| Vulnerability.name := js "foo";
     Vulnerability.severity := SevLow;
     Vulnerability.isDirect := true;
     Vulnerability.fixAvailable := None;
     Vulnerability.via := [ViaString (js "bar")];
     Vulnerability.range := js "*";
     Vulnerability.nodes := [js "node_modules/foo"] |}.

(** A fixable finding caused by other packages only. *)
Definition jsdom : Vulnerability.t :=
  {| Vulnerability.name := js "jsdom";
     Vulnerability.severity := SevModerate;
     Vulnerability.isDirect := true;
     Vulnerability.fixAvailable := Some JsObject;
     Vulnerability.via := [ViaString (js "tough-cookie"); ViaString (js "@tootallnate/once")];
     Vulnerability.range := js "<=16.5.3";
     Vulnerability.nodes := [js "node_modules/jsdom"] |}.

(** An advisory without a CVSS rating: the tool prints a score of 0. *)
Definition unratedReport : VulnerabilityReport.t :=
  {| VulnerabilityReport.source := NInt 1;
     VulnerabilityReport.name := js "left-pad";
     VulnerabilityReport.dependency := js "left-pad";
     VulnerabilityReport.title := js "Regular expression denial of service";
     VulnerabilityReport.url := js "https://github.com/advisories/GHSA-0000-0000-0000";
     VulnerabilityReport.severity := SevLow;
     VulnerabilityReport.cvss := Some (Cvss.mk (NInt 0) []);
     VulnerabilityReport.range := js "<1.3.0" |}.

Definition leftPad : Vulnerability.t :=
  {| Vulnerability.name := js "left-pad";
     Vulnerability.severity := SevLow;
     Vulnerability.isDirect := true;
     Vulnerability.fixAvailable := Some (JsBoolean true);
     Vulnerability.via := [ViaString (js "pad"); ViaReport unratedReport; ViaString (js "foo")];
     Vulnerability.range := js "<1.3.0";
     Vulnerability.nodes := [js "node_modules/left-pad"] |}.

(** ** Statements about [run] *)

(** The audit [run] works on: the parsed output, or the audit inside the
    envelope. *)
Definition innerAudit (parsed : AuditData) : NPMAudit.t :=
  match parsed with
  | AuditFix f => NPMAuditFix.audit f
  | Audit a => a
  end.

(** The statements of [run] that follow [JSON.parse]. *)
Definition afterParse (CSS_escape : jsstring -> jsstring) (host : Host)
  (outputPath : jsstring) (parsed : AuditData) : Action unit :=
  bind (unwrapAuditFix parsed) (fun data =>
  bind (setIssueOutputs data) (fun _ =>
  bind (formatNpmAuditOutput CSS_escape data) (fun formattedOutput =>
  bind (emit (SetOutput (js "markdown") formattedOutput)) (fun _ =>
  writeReport host outputPath formattedOutput)))).

(** The events of [run] up to the end of [runNpmAudit], when the working
    directory resolves to [resolvedWD] and the tool answers [r]. *)
Definition startupEvents (resolvedWD : jsstring) (fix_ : bool) (r : ExecResult) : list Event :=
  [Debug (js "Setting working directory to " ++ dquote ++ resolvedWD ++ dquote ++ js ".");
   Chdir resolvedWD;
   Debug (js "Running npm audit " ++ (if fix_ then js "fix" else []) ++ ellipsis);
   Exec (auditCommand fix_)]
  ++ match stderr r with
     | [] => []
     | _ :: _ => [Debug (js "[npm audit]: " ++ stderr r)]
     end.

(** The events an action adds when it runs in a world without history. *)
Definition events {A} (c : Action A) : list Event := trace (fst (c (mkWorld [] []))).

Definition isSetOutput (e : Event) : bool :=
  match e with
  | SetOutput _ _ => true
  | _ => false
  end.

(** The value read from [data.fixAvailable] is truthy; an absent field
    reads as [undefined]. *)
Definition fixAvailable_truthy (data : Vulnerability.t) : bool :=
  ToBoolean match Vulnerability.fixAvailable data with
            | Some v => v
            | None => JsUndefined
            end.

(** A fix envelope around the audit behind [pr-content.md]. *)
Definition toughCookieFix : NPMAuditFix.t :=
  {| NPMAuditFix.added := NInt 3;
     NPMAuditFix.removed := NInt 1;
     NPMAuditFix.changed := NInt 2;
     NPMAuditFix.audited := NInt 120;
     NPMAuditFix.funding := NInt 14;
     NPMAuditFix.audit := toughCookieAudit |}.

(** A run in fix mode whose tool prints install notices and an envelope. *)
Definition fixHost : Host :=
  hostOf [] [] true (js "/ws") (mkExecResult None fixOutput [])
         (inr (AuditFix toughCookieFix)).

(** A run without fix mode over two findings, one of them fixable. *)
Definition auditHost : Host :=
  hostOf [] [] false (js "/ws") (mkExecResult None (js "{}") (js "npm warn old lockfile"))
         (inr (Audit (auditOf [(js "foo", foo); (js "tough-cookie", toughCookie)]))).

(** A run in workspace [/ws] that is asked to write next to it. *)
Definition siblingHost : Host :=
  hostOf [] (js "../ws-evil/report.md") true (js "/ws") (mkExecResult None (js "{}") [])
         (inr (Audit (auditOf []))).

(** A run that is asked to write the report of a fixable finding into
    the workspace. *)
Definition reportHost : Host :=
  hostOf [] (js "pr-content.md") true (js "/ws") (mkExecResult None (js "{}") [])
         (inr (Audit toughCookieAudit)).

(** Path containment on resolved POSIX paths: every segment of [root] is
    the segment of [p] at the same place. *)
Fixpoint isPrefix (a b : list jsstring) : bool :=
  match a, b with
  | [], _ => true
  | _ :: _, [] => false
  | x :: a', y :: b' => jsstring_eqb x y && isPrefix a' b'
  end.

Definition isInside (root p : jsstring) : bool :=
  isPrefix (Posix.segments root) (Posix.segments p).

(** ** The second copy of [main.ts]

    The sources hold a second copy of the three functions (lines 142 to
    261 of [main.ts]): there [runNpmAudit] resolves with stdout as it is,
    [formatNpmAuditOutput] takes the JSON text and parses it itself, and
    [run] audits first and runs the fix after the report is written. *)

Module AuditThenFix.

Section Program.

Variable CSS_escape : jsstring -> jsstring.
Variable host : Host.

(** The [TypeError] of [Object.values(undefined)]. *)
Variable not_an_object : Error.

Local Open Scope action_scope.

(** Run "npm audit" and return the stdout of that operation. *)
Definition runNpmAudit (fix_ : bool) : Action jsstring :=
  emit (Debug (js "Running npm audit " ++ (if fix_ then js "fix" else []) ++ ellipsis)) ;;
  r <- exec_await host (js "npm audit --json " ++ (if fix_ then js "fix" else [])) ;;
  (if ToBoolean (JsString (stderr r))
   then emit (Debug (js "[npm audit]: " ++ stderr r))
   else ret tt) ;;
  match error r with
  | Some e => throw e
  | None => ret (stdout r)
  end.

(** [Object.values(data.vulnerabilities)] on the parsed text: an envelope
    has no [vulnerabilities] property. *)
Definition vulnerabilities_values (data : AuditData) : Action (list Vulnerability.t) :=
  match data with
  | Audit a => ret (Object_values (NPMAudit.vulnerabilities a))
  | AuditFix _ => throw not_an_object
  end.

(** Format "npm audit --json" output as Markdown.  The filter is
    [({ fixAvailable }) => fixAvailable]; the guard of [find] is
    [typeof via === 'object' && via.title], the body of [isReport]; the
    loops are those of the first copy, and as there the body ends without
    a [return] after them. *)
Definition formatNpmAuditOutput (json : jsstring) : Action JsValue :=
  data <- liftE (JSON_parse host json) ;;
  values <- vulnerabilities_values data ;;
  let fixable :=
    filter (fun v => ToBoolean match Vulnerability.fixAvailable v with
                               | Some x => x
                               | None => JsUndefined
                               end)
           values in
  emit (Info (js "Found " ++ length_toString fixable ++ js " fixable issues")) ;;
  let output := js "# Audit report" ++ nl in
  if (length fixable =? 0)%nat then
    ret (JsString (output ++ js "No fixable problems found ("
                          ++ length_toString values ++ js " unfixable)"))
  else
    let output :=
      output ++ nl ++ js "This audit fix resolves " ++ length_toString fixable
             ++ js " of the total " ++ length_toString values
             ++ js " vulnerabilities found in your project." ++ nl
             ++ nl ++ js "## Updated dependencies" ++ nl in
    let output := fold_left (updatedDependency CSS_escape) fixable output in
    let output := output ++ js "## Fixed vulnerabilities" ++ nl in
    let output := fold_left (fixedVulnerability CSS_escape) fixable output in
    ret JsUndefined.

(** The [if (outputPath)] block of [run]; [false] stands for its
    [return], which leaves [run] before the fix. *)
Definition writeReport (outputPath : jsstring) (formattedOutput : JsValue) : Action bool :=
  if ToBoolean (JsString outputPath) then
    resolvedPath <- resolvePath host (Some outputPath) ;;
    root <- resolvePath host (GITHUB_WORKSPACE host) ;;
    if negb (startsWith resolvedPath root) then
      emit (SetFailed (js "Invalid " ++ dquote ++ js "output-path" ++ dquote)) ;;
      ret false
    else
      writeFile host resolvedPath formattedOutput ;;
      ret true
  else ret true.

(** The main function for the action. *)
Definition run : Action unit :=
  try_catch
    (let wd := or_env (getInput host (js "working-directory")) (GITHUB_WORKSPACE host) in
     let outputPath := getInput host (js "output-path") in
     fix_ <- liftE (getBooleanInput host (js "fix")) ;;
     resolvedWD <- resolvePath host wd ;;
     emit (Debug (js "Setting working directory to " ++ dquote ++ resolvedWD
                     ++ dquote ++ js ".")) ;;
     chdir host resolvedWD ;;
     output <- runNpmAudit false ;;
     formattedOutput <- formatNpmAuditOutput output ;;
     emit (SetOutput (js "markdown") formattedOutput) ;;
     continue <- writeReport outputPath formattedOutput ;;
     if continue then
       if fix_ then runNpmAudit true ;; ret tt else ret tt
     else ret tt)
    (fun error => emit (SetFailed (message error))).

End Program.

End AuditThenFix.

(** ** Reading a trace *)

Definition isSetFailed (e : Event) : bool :=
  match e with
  | SetFailed _ => true
  | _ => false
  end.

Definition isExec (e : Event) : bool :=
  match e with
  | Exec _ => true
  | _ => false
  end.

Definition isChdir (e : Event) : bool :=
  match e with
  | Chdir _ => true
  | _ => false
  end.

Definition isWriteFile (e : Event) : bool :=
  match e with
  | WriteFile _ _ => true
  | _ => false
  end.

(** The names of the outputs a trace sets, in order. *)
Definition outputNames (evs : list Event) : list jsstring :=
  flat_map (fun e => match e with SetOutput name _ => [name] | _ => [] end) evs.

(** The events that touch the process, the tool or the file system. *)
Definition effects (evs : list Event) : list Event :=
  filter (fun e => isChdir e || isExec e || isWriteFile e) evs.

(** The four outputs of the action, in the order [run] sets them. *)
Definition fourOutputs : list jsstring :=
  [js "issues-total"; js "issues-fixable"; js "issues-unfixable"; js "markdown"].

(** ** More hosts *)

(** [base] with other answers from the [fix] input, the environment,
    [process.chdir] and the file system. *)
Definition hostWith (base : Host) (fixInput : Error + bool) (ws : option jsstring)
  (chdirError : jsstring -> option Error)
  (writeError : jsstring -> jsstring -> option Error) : Host :=
  {| getInput := getInput base;
     getBooleanInput := fun _ => fixInput;
     GITHUB_WORKSPACE := ws;
     path_resolve := path_resolve base;
     invalid_arg_type := invalid_arg_type base;
     chdir_error := chdirError;
     exec := exec base;
     JSON_parse := JSON_parse base;
     writeFile_error := writeError |}.

(** A process started in the workspace [/ws]. *)
Definition wsWorld : World := mkWorld [] (js "/ws").

(** The [fix] input holds text that is no boolean. *)
Definition badFixHost : Host :=
  hostWith auditHost
           (inl (mkError (js "Input does not meet YAML 1.2 " ++ dquote ++ js "Core Schema"
                             ++ dquote ++ js " specification: fix")))
           (Some (js "/ws")) (fun _ => None) (fun _ _ => None).

(** Neither the working-directory input nor the workspace is set. *)
Definition noDirectoryHost : Host :=
  hostWith auditHost (inr true) None (fun _ => None) (fun _ _ => None).

(** The working directory does not exist. *)
Definition missingDirectoryHost : Host :=
  hostWith (hostOf (js "packages/app") [] true (js "/ws") (mkExecResult None (js "{}") [])
                   (inr (Audit (auditOf []))))
           (inr true) (Some (js "/ws"))
           (fun dir => Some (mkError (js "ENOENT: no such file or directory, chdir "
                                         ++ js "'/ws' -> '" ++ dir ++ js "'")))
           (fun _ _ => None).

(** The tool exits with an error. *)
Definition failingToolHost : Host :=
  toolHost (mkExecResult (Some (mkError (js "Command failed: npm audit --json ")))
                         [] (js "npm error code ENOLOCK")).

(** The tool prints text that is no JSON. *)
Definition unparsableHost : Host :=
  toolHost (mkExecResult None (js "npm notice {") []).

(** A run that is asked to write outside the workspace. *)
Definition passwdHost : Host :=
  hostOf [] (js "/etc/passwd") true (js "/ws") (mkExecResult None (js "{}") [])
         (inr (Audit (auditOf [(js "foo", foo)]))).

(** A run over an unfixable finding that is asked to write into the
    workspace, from the directory [packages/app] of it. *)
Definition unfixableReportHost : Host :=
  hostOf (js "packages/app") (js "../../pr-content.md") true (js "/ws")
         (mkExecResult None (js "{}") [])
         (inr (Audit (auditOf [(js "foo", foo)]))).

(** The events of the fix the second copy of [run] runs last, when the
    tool answers [r] to the fix command. *)
Definition fixEvents (fix_ : bool) (r : ExecResult) : list Event :=
  if fix_ then
    [Debug (js "Running npm audit fix" ++ ellipsis); Exec (auditCommand true)]
    ++ match stderr r with
       | [] => []
       | _ :: _ => [Debug (js "[npm audit]: " ++ stderr r)]
       end
    ++ match error r with
       | Some e => [SetFailed (message e)]
       | None => []
       end
  else [].

(** The [TypeError] V8 raises for [Object.values(undefined)]. *)
Definition notAnObject : Error := mkError (js "Cannot convert undefined or null to object").

(** A tool that finds two issues and then fails to fix them. *)
Definition auditThenFixHost : Host :=
  {| getInput := fun _ => [];
     getBooleanInput := fun _ => inr true;
     GITHUB_WORKSPACE := Some (js "/ws");
     path_resolve := Posix.resolve;
     invalid_arg_type := invalid_arg_type auditHost;
     chdir_error := fun _ => None;
     exec :=
       fun _ command =>
         if jsstring_eqb command (js "npm audit --json fix")
         then mkExecResult (Some (mkError (js "Command failed: npm audit --json fix")))
                           [] (js "npm error code ERESOLVE")
         else mkExecResult None (js "{}") [];
     JSON_parse :=
       fun _ => inr (Audit (auditOf [(js "foo", foo); (js "tough-cookie", toughCookie)]));
     writeFile_error := fun _ _ => None |}.

(** * Properties *)

(** ** Computing with the model *)

Example indexOf_ex : indexOf lbrace (js "ab{c{") = 2.
Proof. reflexivity. Qed.
Example slice_ex : slice (js "abc") (-1) = js "c".
Proof. reflexivity. Qed.
Example toString_ex : Number_toString (NInt (-120)) = js "-120" /\ Number_toString (NInt 0) = js "0".
Proof. split; reflexivity. Qed.

Example CSS_escape_ex :
  CSS.escape (js "tough-cookie") = js "tough-cookie"
  /\ CSS.escape (js "@babel/core") = js "\@babel\/core"
  /\ CSS.escape (js "7zip") = js "\37 zip".
Proof. repeat split; reflexivity. Qed.

Example Posix_resolve_ex :
  Posix.resolve (js "/ws") (js "pr-content.md") = js "/ws/pr-content.md"
  /\ Posix.resolve (js "/ws") (js "../etc/./passwd") = js "/etc/passwd"
  /\ Posix.resolve (js "/ws") (js "/ws-evil//report.md") = js "/ws-evil/report.md"
  /\ Posix.resolve (js "/ws") [] = js "/ws"
  /\ Posix.resolve (js "/ws") (js "../..") = js "/".
Proof. repeat split; reflexivity. Qed.


(** The section of a finding caused by other packages, as text. *)
Example jsdom_section :
  fixedVulnerability CSS.escape [] jsdom
  = nl ++ js "### jsdom <a href=" ++ dquote ++ js "#user-content-jsdom" ++ dquote
       ++ js " id=" ++ dquote ++ js "jsdom" ++ dquote ++ js ">#</a>" ++ nl
       ++ js "* Caused by vulnerable dependency:" ++ nl
       ++ js "  * [tough-cookie](#user-content-tough-cookie)" ++ nl
       ++ js "  * [@tootallnate/once](#user-content-\@tootallnate\/once)" ++ nl
       ++ js "* Affected versions: <=16.5.3" ++ nl
       ++ js "* Package usage:" ++ nl
       ++ js "  * `node_modules/jsdom`" ++ nl.
Proof. vm_compute. reflexivity. Qed.

(** ** String primitives *)

Lemma indexOf_absent c s : ~ In c s -> indexOf c s = -1.
Proof.
  induction s as [|x s IH]; intros Hn; [reflexivity|].
  simpl. destruct (N.eqb_spec x c) as [->|_].
  - exfalso. apply Hn. now left.
  - rewrite IH by (intros H; apply Hn; now right). reflexivity.
Qed.

Lemma indexOf_here c s : indexOf c (c :: s) = 0.
Proof. simpl. now rewrite N.eqb_refl. Qed.

Lemma indexOf_first c pre post :
  ~ In c pre -> indexOf c (pre ++ c :: post) = Z.of_nat (length pre).
Proof.
  induction pre as [|x pre IH]; intros Hn.
  - apply indexOf_here.
  - cbn [app indexOf length]. destruct (N.eqb_spec x c) as [->|_].
    + exfalso. apply Hn. now left.
    + rewrite IH by (intros H; apply Hn; now right).
      destruct (Z.ltb_spec (Z.of_nat (length pre)) 0); lia.
Qed.

Lemma first_occurrence (c : N) (s : jsstring) :
  In c s -> exists pre post, s = pre ++ c :: post /\ ~ In c pre.
Proof.
  induction s as [|x s IH]; intros Hin; [contradiction|].
  destruct (N.eq_dec x c) as [->|Hne].
  - exists [], s. split; [reflexivity|intros []].
  - destruct Hin as [Heq|Hin]; [contradiction|].
    destruct (IH Hin) as (pre & post & -> & Hn).
    exists (x :: pre), post. split; [reflexivity|].
    intros [H|H]; [contradiction|now apply Hn].
Qed.

Lemma slice_nonneg s pre post :
  s = pre ++ post -> slice s (Z.of_nat (length pre)) = post.
Proof.
  intros ->. unfold slice. rewrite length_app.
  destruct (Z.ltb_spec (Z.of_nat (length pre)) 0); [lia|].
  rewrite Z.min_l by lia. rewrite Nat2Z.id.
  rewrite skipn_app, skipn_all, Nat.sub_diag. reflexivity.
Qed.


Lemma slice_minus_one_nil : slice [] (-1) = [].
Proof. reflexivity. Qed.

(** ** [runNpmAudit] *)

Section RunNpmAudit.

Variable host : Host.
Variable fix_ : bool.
Variable w : World.

Let r := exec host (cwd w) (auditCommand fix_).

(** Everything [runNpmAudit] does to the world, whatever the outcome. *)
Lemma runNpmAudit_trace :
  trace (fst (runNpmAudit host fix_ w))
  = trace w
    ++ [Debug (js "Running npm audit " ++ (if fix_ then js "fix" else []) ++ ellipsis);
        Exec (auditCommand fix_)]
    ++ (if ToBoolean (JsString (stderr r)) then [Debug (js "[npm audit]: " ++ stderr r)]
        else []).
Proof.
  unfold runNpmAudit, bind, emit, exec_await, ret, throw. cbn [trace cwd fst].
  fold r. destruct (ToBoolean (JsString (stderr r))); cbn [trace cwd];
    destruct (error r); cbn [fst trace];
    rewrite <- ?app_assoc; reflexivity.
Qed.

Lemma runNpmAudit_cwd : cwd (fst (runNpmAudit host fix_ w)) = cwd w.
Proof.
  unfold runNpmAudit, bind, emit, exec_await, ret, throw. cbn [trace cwd fst].
  fold r. destruct (ToBoolean (JsString (stderr r))); cbn [trace cwd];
    destruct (error r); reflexivity.
Qed.

Lemma runNpmAudit_resolves :
  error r = None ->
  snd (runNpmAudit host fix_ w) = inr (slice (stdout r) (indexOf lbrace (stdout r))).
Proof.
  intros He. unfold runNpmAudit, bind, emit, exec_await, ret, throw. cbn [trace cwd].
  fold r. destruct (ToBoolean (JsString (stderr r))); cbn [trace cwd];
    rewrite He; reflexivity.
Qed.

Lemma runNpmAudit_rejects e :
  error r = Some e -> snd (runNpmAudit host fix_ w) = inl e.
Proof.
  intros He. unfold runNpmAudit, bind, emit, exec_await, ret, throw. cbn [trace cwd].
  fold r. destruct (ToBoolean (JsString (stderr r))); cbn [trace cwd];
    rewrite He; reflexivity.
Qed.

(** Without a brace in the output, [indexOf] answers [-1] and [slice]
    keeps the last code unit only. *)
Lemma runNpmAudit_no_brace :
  error r = None -> ~ In lbrace (stdout r) ->
  snd (runNpmAudit host fix_ w) = inr (slice (stdout r) (-1)).
Proof.
  intros He Hn. rewrite runNpmAudit_resolves by exact He.
  now rewrite indexOf_absent.
Qed.

Lemma runNpmAudit_eq :
  runNpmAudit host fix_ w
  = (mkWorld
       (trace w
        ++ [Debug (js "Running npm audit " ++ (if fix_ then js "fix" else []) ++ ellipsis);
            Exec (auditCommand fix_)]
        ++ (if ToBoolean (JsString (stderr r)) then [Debug (js "[npm audit]: " ++ stderr r)]
            else []))
       (cwd w),
     match error r with
     | Some e => inl e
     | None => inr (slice (stdout r) (indexOf lbrace (stdout r)))
     end).
Proof.
  rewrite <- runNpmAudit_trace, <- runNpmAudit_cwd.
  destruct (runNpmAudit host fix_ w) as [[t c] res] eqn:E. cbn [fst]. f_equal.
  change res with (snd (mkWorld t c, res)). rewrite <- E.
  destruct (error r) as [e|] eqn:He.
  - now apply runNpmAudit_rejects.
  - now apply runNpmAudit_resolves.
Qed.

End RunNpmAudit.

(** C5: when the tool succeeds and its stdout contains a brace,
    [runNpmAudit] resolves with the part of stdout that starts at the
    first brace; for the output quoted in the specification that is the
    two-line text made of the opening and the closing brace. *)
Theorem runNpmAudit_strips_preamble :
  (forall host fix_ w,
      let r := exec host (cwd w) (auditCommand fix_) in
      error r = None -> In lbrace (stdout r) ->
      exists pre post,
        stdout r = pre ++ lbrace :: post /\ ~ In lbrace pre
        /\ snd (runNpmAudit host fix_ w) = inr (lbrace :: post))
  /\ (forall host fix_ w,
         let r := exec host (cwd w) (auditCommand fix_) in
         error r = None -> stdout r = fixOutput ->
         snd (runNpmAudit host fix_ w) = inr (js "{" ++ nl ++ js "}")).
Proof.
  split; intros host fix_ w r He Hs.
  - destruct (first_occurrence _ _ Hs) as (pre & post & Heq & Hn).
    exists pre, post. repeat split; [exact Heq | exact Hn |].
    rewrite runNpmAudit_resolves by exact He. fold r. rewrite Heq.
    rewrite indexOf_first by exact Hn. f_equal. now apply slice_nonneg.
  - rewrite runNpmAudit_resolves by exact He. fold r. rewrite Hs. reflexivity.
Qed.

Lemma runNpmAudit_strips_preamble_witness :
  (exists pre post,
      fixOutput = pre ++ lbrace :: post /\ ~ In lbrace pre
      /\ snd (runNpmAudit (toolHost (mkExecResult None fixOutput [])) true world0)
         = inr (lbrace :: post))
  /\ snd (runNpmAudit (toolHost (mkExecResult None fixOutput [])) false world0)
     = inr (js "{" ++ nl ++ js "}").
Proof.
  split.
  - apply (proj1 runNpmAudit_strips_preamble
             (toolHost (mkExecResult None fixOutput [])) true world0).
    + reflexivity.
    + vm_compute. tauto.
  - apply (proj2 runNpmAudit_strips_preamble
             (toolHost (mkExecResult None fixOutput [])) false world0);
      reflexivity.
Defined.

(** C2, at a stdout without a brace: the call resolves with the last
    code unit of stdout, not with stdout. *)
Theorem runNpmAudit_without_brace :
  let stdout_ := js "up to date, audited 1 package in 1s" in
  ~ In lbrace stdout_
  /\ snd (runNpmAudit (toolHost (mkExecResult None stdout_ [])) false world0)
     = inr (js "s")
  /\ snd (runNpmAudit (toolHost (mkExecResult None stdout_ [])) false world0)
     <> inr stdout_.
Proof.
  cbv zeta. split; [|split].
  - vm_compute. intuition discriminate.
  - reflexivity.
  - vm_compute. discriminate.
Qed.

(** C8: when the tool fails, [runNpmAudit] rejects with the tool's own
    error; on every path it calls the tool exactly once, and a non-empty
    stderr is logged at debug level behind the tag "[npm audit]: ". *)
Theorem runNpmAudit_failure :
  forall host fix_ w,
    let r := exec host (cwd w) (auditCommand fix_) in
    (forall e, error r = Some e -> snd (runNpmAudit host fix_ w) = inl e)
    /\ trace (fst (runNpmAudit host fix_ w))
       = trace w
         ++ [Debug (js "Running npm audit " ++ (if fix_ then js "fix" else []) ++ ellipsis);
             Exec (auditCommand fix_)]
         ++ (match stderr r with
             | [] => []
             | _ :: _ => [Debug (js "[npm audit]: " ++ stderr r)]
             end).
Proof.
  intros host fix_ w r. split.
  - intros e He. now apply runNpmAudit_rejects.
  - rewrite runNpmAudit_trace. fold r. destruct (stderr r); reflexivity.
Qed.

Lemma runNpmAudit_failure_witness :
  let failed := mkExecResult (Some (mkError (js "Some error"))) [] (js "An error happened") in
  snd (runNpmAudit (toolHost failed) false world0) = inl (mkError (js "Some error"))
  /\ trace (fst (runNpmAudit (toolHost failed) false world0))
     = [Debug (js "Running npm audit " ++ ellipsis);
        Exec (js "npm audit --json ");
        Debug (js "[npm audit]: An error happened")].
Proof.
  cbv zeta. split.
  - apply (proj1 (runNpmAudit_failure
                    (toolHost (mkExecResult (Some (mkError (js "Some error"))) []
                                            (js "An error happened")))
                    false world0)).
    reflexivity.
  - reflexivity.
Defined.

(** ** [formatNpmAuditOutput] *)

(** A loop that appends one piece per element builds the concatenation
    of the pieces. *)
Lemma fold_left_append {A} (piece : A -> jsstring) (l : list A) (output : jsstring) :
  fold_left (fun output x => output ++ piece x) l output
  = output ++ concat (map piece l).
Proof.
  revert output. induction l as [|x l IH]; intros output; cbn [fold_left map concat].
  - now rewrite app_nil_r.
  - rewrite IH. now rewrite <- app_assoc.
Qed.

Lemma find_isReport_first pre r post :
  Forall (fun e => isReport e = false) pre ->
  isReport (ViaReport r) = true ->
  find isReport (pre ++ ViaReport r :: post) = Some (ViaReport r).
Proof.
  intros Hpre Hr. induction Hpre as [|e pre He _ IH]; cbn [app find].
  - now rewrite Hr.
  - now rewrite He.
Qed.

Lemma find_isReport_none (vias : list Via) :
  Forall (fun e => isReport e = false) vias -> find isReport vias = None.
Proof.
  induction 1 as [|e vias He _ IH]; cbn [find]; [reflexivity|now rewrite He].
Qed.

(** [find] with the guard [isReport] never yields a string. *)
Lemma find_isReport_report (vias : list Via) (e : Via) :
  find isReport vias = Some e ->
  exists r, e = ViaReport r /\ VulnerabilityReport.title r <> [].
Proof.
  intros H. apply find_some in H as [_ H]. destruct e as [r|s]; [|discriminate].
  exists r. split; [reflexivity|].
  cbn in H. now destruct (VulnerabilityReport.title r).
Qed.

Lemma first_report (vias : list Via) :
  existsb isReport vias = true ->
  exists pre r post,
    vias = pre ++ ViaReport r :: post
    /\ Forall (fun e => isReport e = false) pre
    /\ isReport (ViaReport r) = true.
Proof.
  induction vias as [|e vias IH]; cbn [existsb]; [discriminate|].
  destruct (isReport e) eqn:He; cbn [orb].
  - intros _. destruct e as [r|s]; [|discriminate].
    exists [], r, vias. repeat split; [constructor | exact He].
  - intros H. destruct (IH H) as (pre & r & post & -> & Hpre & Hr).
    exists (e :: pre), r, post. repeat split; [now constructor | exact Hr].
Qed.

Lemma Severity_is_critical (s : Severity) :
  jsstring_eqb (Severity_toString s) (js "critical") = true <-> s = SevCritical.
Proof. destruct s; vm_compute; split; congruence. Qed.

Section Formatter.

Variable CSS_escape : jsstring -> jsstring.
Lemma reportLines_eq output info :
  reportLines output info = output ++ description info.
Proof.
  unfold reportLines, description, cvss_score.
  assert (Hc : (if jsstring_eqb (Severity_toString (VulnerabilityReport.severity info))
                                (js "critical")
                then js " " ++ rotating_light else [])
               = match VulnerabilityReport.severity info with
                 | SevCritical => js " " ++ rotating_light
                 | _ => []
                 end).
  { destruct (VulnerabilityReport.severity info); reflexivity. }
  rewrite Hc.
  destruct (VulnerabilityReport.cvss info) as [c|]; cbn [ToBoolean JsValue_toString];
    repeat rewrite <- app_assoc; reflexivity.
Qed.

Lemma causedByLines_eq output vias :
  causedByLines CSS_escape output vias
  = output ++ js "* Caused by vulnerable dependency:" ++ nl
           ++ concat (map (viaBullet CSS_escape) vias).
Proof.
  unfold causedByLines.
  rewrite (fold_left_append (viaBullet CSS_escape)). now repeat rewrite <- app_assoc.
Qed.

(** The section of one vulnerability: heading, description or causes,
    versions and usage. *)
Lemma fixedVulnerability_eq output vul :
  fixedVulnerability CSS_escape output vul
  = output ++ heading CSS_escape vul
           ++ match find isReport (Vulnerability.via vul) with
              | Some (ViaReport info) => description info
              | _ => js "* Caused by vulnerable dependency:" ++ nl
                        ++ concat (map (viaBullet CSS_escape) (Vulnerability.via vul))
              end
           ++ versionsAndUsage vul.
Proof.
  unfold fixedVulnerability.
  rewrite (fold_left_append (fun node => js "  * `" ++ node ++ js "`" ++ nl)).
  unfold heading, versionsAndUsage.
  destruct (find isReport (Vulnerability.via vul)) as [[info|s]|];
    rewrite ?reportLines_eq, ?causedByLines_eq;
    repeat rewrite <- app_assoc; reflexivity.
Qed.

End Formatter.

Lemma filter_isFixable_none (l : list Vulnerability.t) :
  Forall (fun v => isFixable v = false) l -> filter isFixable l = [].
Proof.
  induction 1 as [|v l Hv _ IH]; cbn [filter]; [reflexivity|now rewrite Hv].
Qed.

Lemma Object_values_length {A} (o : list (jsstring * A)) :
  length (Object_values o) = length o.
Proof. apply length_map. Qed.

(** With a fixable entry the function reaches the end of its body. *)
Lemma formatNpmAuditOutput_fixable CSS_escape data w :
  filter isFixable (Object_values (NPMAudit.vulnerabilities data)) <> [] ->
  formatNpmAuditOutput CSS_escape data w
  = (mkWorld (trace w
              ++ [Info (js "Found "
                           ++ length_toString
                                (filter isFixable
                                        (Object_values (NPMAudit.vulnerabilities data)))
                           ++ js " fixable issues")])
             (cwd w),
     inr JsUndefined).
Proof.
  intros Hne. unfold formatNpmAuditOutput, bind, emit, ret.
  destruct (filter isFixable (Object_values (NPMAudit.vulnerabilities data)));
    [contradiction|reflexivity].
Qed.

(** C4: when no entry is fixable, [formatNpmAuditOutput] logs that it
    found 0 fixable issues and returns the heading followed by "No fixable
    problems found (N unfixable)", N being the size of the mapping, and
    nothing more; for an empty mapping N is 0. *)
Theorem formatNpmAuditOutput_no_fixable :
  (forall CSS_escape data w,
      Forall (fun v => isFixable v = false)
             (Object_values (NPMAudit.vulnerabilities data)) ->
      formatNpmAuditOutput CSS_escape data w
      = (mkWorld (trace w ++ [Info (js "Found 0 fixable issues")]) (cwd w),
         inr (JsString (js "# Audit report" ++ nl ++ js "No fixable problems found ("
                           ++ length_toString (NPMAudit.vulnerabilities data)
                           ++ js " unfixable)"))))
  /\ (forall CSS_escape data w,
         NPMAudit.vulnerabilities data = [] ->
         snd (formatNpmAuditOutput CSS_escape data w)
         = inr (JsString (js "# Audit report" ++ nl
                             ++ js "No fixable problems found (0 unfixable)"))).
Proof.
  split; intros CSS_escape data w H.
  - unfold formatNpmAuditOutput, bind, emit, ret.
    rewrite (filter_isFixable_none _ H). cbn [length Nat.eqb].
    unfold length_toString. rewrite Object_values_length.
    repeat rewrite <- app_assoc. reflexivity.
  - unfold formatNpmAuditOutput. rewrite H. reflexivity.
Qed.

Lemma formatNpmAuditOutput_no_fixable_witness :
  formatNpmAuditOutput CSS.escape (auditOf [(js "foo", foo)]) world0
  = (mkWorld [Info (js "Found 0 fixable issues")] (js "/"),
     inr (JsString (js "# Audit report" ++ nl
                       ++ js "No fixable problems found (1 unfixable)")))
  /\ snd (formatNpmAuditOutput CSS.escape (auditOf []) world0)
     = inr (JsString (js "# Audit report" ++ nl
                         ++ js "No fixable problems found (0 unfixable)")).
Proof.
  split.
  - apply (proj1 formatNpmAuditOutput_no_fixable CSS.escape (auditOf [(js "foo", foo)]) world0).
    repeat constructor.
  - apply (proj2 formatNpmAuditOutput_no_fixable CSS.escape (auditOf []) world0).
    reflexivity.
Defined.

(** C1, at the audit behind [pr-content.md]: the function logs "Found 1
    fixable issues" and builds the whole report in [output], but the call
    yields [undefined], not that string. *)
Theorem formatNpmAuditOutput_returns_undefined :
  formatNpmAuditOutput CSS.escape toughCookieAudit world0
  = (mkWorld [Info (js "Found 1 fixable issues")] (js "/"), inr JsUndefined)
  /\ output_at_end CSS.escape toughCookieAudit = prContent.
Proof. split; vm_compute; reflexivity. Qed.

Section OneVulnerability.

Variable CSS_escape : jsstring -> jsstring.

Lemma fixedVulnerability_report output vul pre info post :
  Vulnerability.via vul = pre ++ ViaReport info :: post ->
  Forall (fun e => isReport e = false) pre ->
  isReport (ViaReport info) = true ->
  fixedVulnerability CSS_escape output vul
  = output ++ heading CSS_escape vul ++ description info ++ versionsAndUsage vul.
Proof.
  intros Hvia Hpre Hinfo. rewrite fixedVulnerability_eq, Hvia.
  now rewrite (find_isReport_first _ _ _ Hpre Hinfo).
Qed.

Lemma fixedVulnerability_causes output vul :
  Forall (fun e => isReport e = false) (Vulnerability.via vul) ->
  fixedVulnerability CSS_escape output vul
  = output ++ heading CSS_escape vul
           ++ (js "* Caused by vulnerable dependency:" ++ nl
                  ++ concat (map (viaBullet CSS_escape) (Vulnerability.via vul)))
           ++ versionsAndUsage vul.
Proof.
  intros Hvia. rewrite fixedVulnerability_eq.
  now rewrite (find_isReport_none _ Hvia).
Qed.

End OneVulnerability.


(** C10: when the [via] list of a vulnerability holds a structured
    report, its section is the heading, the description taken from the
    first such report, and the versions and usage lines; the string
    entries before and after that report contribute nothing, so the
    section is the one the vulnerability would get with that report as
    its only [via] entry. *)
Theorem fixedVulnerability_first_report_only :
  forall CSS_escape output vul,
    existsb isReport (Vulnerability.via vul) = true ->
    exists pre info post,
      Vulnerability.via vul = pre ++ ViaReport info :: post
      /\ Forall (fun e => isReport e = false) pre
      /\ fixedVulnerability CSS_escape output vul
         = output ++ heading CSS_escape vul ++ description info ++ versionsAndUsage vul
      /\ fixedVulnerability CSS_escape output vul
         = fixedVulnerability CSS_escape output (with_via vul [ViaReport info]).
Proof.
  intros CSS_escape output vul H.
  destruct (first_report _ H) as (pre & info & post & Hvia & Hpre & Hinfo).
  exists pre, info, post. repeat split; [exact Hvia | exact Hpre | |].
  - now apply (fixedVulnerability_report CSS_escape output vul pre info post).
  - rewrite (fixedVulnerability_report CSS_escape output vul pre info post Hvia Hpre Hinfo).
    symmetry.
    apply (fixedVulnerability_report CSS_escape output
             (with_via vul [ViaReport info]) [] info []);
      [reflexivity | constructor | exact Hinfo].
Qed.

Lemma fixedVulnerability_first_report_only_witness :
  exists pre info post,
    Vulnerability.via leftPad = pre ++ ViaReport info :: post
    /\ Forall (fun e => isReport e = false) pre
    /\ fixedVulnerability CSS.escape [] leftPad
       = [] ++ heading CSS.escape leftPad ++ description info ++ versionsAndUsage leftPad
    /\ fixedVulnerability CSS.escape [] leftPad
       = fixedVulnerability CSS.escape [] (with_via leftPad [ViaReport info]).
Proof.
  apply (fixedVulnerability_first_report_only CSS.escape [] leftPad).
  reflexivity.
Defined.

(** C7, as the code has it: an element of [via] passes [isReport] iff it
    is not a string and its title is not empty.  When [via] holds such an
    element, the first one gives the description: its title, its severity
    in bold, the warning glyph iff the severity is critical, the CVSS
    score in parentheses when the report has one that is not zero, and the
    advisory URL as a link whose text and target are the same.  When it
    holds none, the line "Caused by vulnerable dependency" comes with one
    anchor-linked bullet per element of [via], a string element being
    linked by its own text. *)
Theorem via_description :
  forall CSS_escape,
    (forall e, isReport e = true
               <-> exists r, e = ViaReport r /\ VulnerabilityReport.title r <> [])
    /\ (forall output vul pre info post,
           Vulnerability.via vul = pre ++ ViaReport info :: post ->
           Forall (fun e => isReport e = false) pre ->
           isReport (ViaReport info) = true ->
           fixedVulnerability CSS_escape output vul
           = output ++ heading CSS_escape vul ++ description info
                    ++ versionsAndUsage vul)
    /\ (forall output vul,
           Forall (fun e => isReport e = false) (Vulnerability.via vul) ->
           fixedVulnerability CSS_escape output vul
           = output ++ heading CSS_escape vul
                    ++ (js "* Caused by vulnerable dependency:" ++ nl
                           ++ concat (map (viaBullet CSS_escape) (Vulnerability.via vul)))
                    ++ versionsAndUsage vul)
    /\ (forall s, viaBullet CSS_escape (ViaString s)
                  = js "  * [" ++ s ++ js "](#user-content-" ++ CSS_escape s
                       ++ js ")" ++ nl).
Proof.
  intros CSS_escape. split; [|split; [|split]].
  - intros [r|s]; cbn [isReport ToBoolean andb]; split.
    + intros H. exists r. split; [reflexivity|].
      now destruct (VulnerabilityReport.title r).
    + intros (r' & Heq & Ht). injection Heq as <-.
      now destruct (VulnerabilityReport.title r).
    + discriminate.
    + intros (r & Heq & _). discriminate.
  - apply fixedVulnerability_report.
  - apply fixedVulnerability_causes.
  - reflexivity.
Qed.

Lemma via_description_witness :
  fixedVulnerability CSS.escape [] leftPad
  = [] ++ heading CSS.escape leftPad ++ description unratedReport
       ++ versionsAndUsage leftPad
  /\ fixedVulnerability CSS.escape [] jsdom
     = [] ++ heading CSS.escape jsdom
          ++ (js "* Caused by vulnerable dependency:" ++ nl
                 ++ concat (map (viaBullet CSS.escape) (Vulnerability.via jsdom)))
          ++ versionsAndUsage jsdom.
Proof.
  split.
  - apply (proj1 (proj2 (via_description CSS.escape)) [] leftPad
             [ViaString (js "pad")] unratedReport [ViaString (js "foo")]).
    + reflexivity.
    + repeat constructor.
    + reflexivity.
  - apply (proj1 (proj2 (proj2 (via_description CSS.escape))) [] jsdom).
    repeat constructor.
Defined.

(** C7 as the specification words it fails for an advisory whose CVSS
    score is 0: the report has a score, and the severity line carries
    none. *)
Lemma stated_description_fails :
  firstStructuredReport (Vulnerability.via leftPad) = Some unratedReport
  /\ fixedVulnerability CSS.escape [] leftPad
     = heading CSS.escape leftPad
       ++ js "* Regular expression denial of service" ++ nl
       ++ js "* Severity: **low**" ++ nl
       ++ js "* Reference: [https://github.com/advisories/GHSA-0000-0000-0000](https://github.com/advisories/GHSA-0000-0000-0000)" ++ nl
       ++ versionsAndUsage leftPad
  /\ stated_description unratedReport
     = js "* Regular expression denial of service" ++ nl
       ++ js "* Severity: **low** (CVSS 0)" ++ nl
       ++ js "* Reference: [https://github.com/advisories/GHSA-0000-0000-0000](https://github.com/advisories/GHSA-0000-0000-0000)" ++ nl
  /\ fixedVulnerability CSS.escape [] leftPad <> stated_section CSS.escape leftPad.
Proof.
  split; [reflexivity|]. split; [vm_compute; reflexivity|].
  split; [vm_compute; reflexivity|]. vm_compute. discriminate.
Qed.

(** ** [run] *)

(** The formatter logs one line and yields a value that does not depend
    on the world it runs in. *)
Lemma formatNpmAuditOutput_eq CSS_escape data :
  exists v,
    forall w,
      formatNpmAuditOutput CSS_escape data w
      = (mkWorld (trace w
                  ++ [Info (js "Found "
                               ++ length_toString
                                    (filter isFixable
                                            (Object_values (NPMAudit.vulnerabilities data)))
                               ++ js " fixable issues")])
                 (cwd w),
         inr v).
Proof.
  unfold formatNpmAuditOutput, bind, emit, ret.
  destruct (filter isFixable (Object_values (NPMAudit.vulnerabilities data)));
    eexists; intros w; reflexivity.
Qed.

(** The report block and the handler of [run] only add events, and none
    of them sets an output. *)
Lemma writeReport_extends host outputPath v w :
  exists rest,
    trace (fst (try_catch (writeReport host outputPath v)
                          (fun error => emit (SetFailed (message error))) w))
    = trace w ++ rest
    /\ forallb (fun e => negb (isSetOutput e)) rest = true.
Proof.
  unfold try_catch, writeReport, bind, resolvePath, writeFile, emit, throw, ret.
  destruct (ToBoolean (JsString outputPath));
    [|exists []; split; [now rewrite app_nil_r|reflexivity]].
  destruct (GITHUB_WORKSPACE host) as [ws|]; [|eexists; split; reflexivity].
  destruct (negb (startsWith _ _)); [eexists; split; reflexivity|].
  destruct v; try (eexists; split; reflexivity).
  destruct (writeFile_error host _ s); cbn [fst trace]; eexists; split; reflexivity.
Qed.

Lemma try_catch_bind {A B} (c : Action A) (k : A -> Action B) h w w' a :
  c w = (w', inr a) -> try_catch (bind c k) h w = try_catch (k a) h w'.
Proof. intros H. unfold try_catch, bind. now rewrite H. Qed.

Lemma unwrapAuditFix_eq parsed w :
  unwrapAuditFix parsed w
  = (mkWorld (trace w ++ events (unwrapAuditFix parsed)) (cwd w), inr (innerAudit parsed)).
Proof.
  destruct w as [t c]. destruct parsed as [a|f]; unfold events; cbn.
  - now rewrite app_nil_r.
  - unfold bind, emit, ret. cbn [trace cwd fst app].
    repeat rewrite <- app_assoc. reflexivity.
Qed.

Lemma setIssueOutputs_eq data w :
  setIssueOutputs data w
  = (mkWorld (trace w ++ events (setIssueOutputs data)) (cwd w), inr tt).
Proof.
  destruct w as [t c]. unfold events, setIssueOutputs, bind, emit, ret.
  cbn [trace cwd fst app]. repeat rewrite <- app_assoc. reflexivity.
Qed.

Section Run.

Variable CSS_escape : jsstring -> jsstring.
Variable host : Host.
Variable w : World.
Variable fix_ : bool.
Variable wd : jsstring.
Variable parsed : AuditData.

Let resolvedWD := path_resolve host (cwd w) wd.
Let r := exec host resolvedWD (auditCommand fix_).
Let handler := fun error : Error => emit (SetFailed (message error)).

Hypothesis Hfix : getBooleanInput host (js "fix") = inr fix_.
Hypothesis Hwd :
  or_env (getInput host (js "working-directory")) (GITHUB_WORKSPACE host) = Some wd.
Hypothesis Hchdir : chdir_error host resolvedWD = None.
Hypothesis Hexec : error r = None.
Hypothesis Hparse :
  JSON_parse host (slice (stdout r) (indexOf lbrace (stdout r))) = inr parsed.

Lemma run_after_parse :
  run CSS_escape host w
  = try_catch (afterParse CSS_escape host (getInput host (js "output-path")) parsed)
              handler
              (mkWorld (trace w ++ startupEvents resolvedWD fix_ r) resolvedWD).
Proof.
  unfold run, try_catch, afterParse.
  unfold bind, liftE, resolvePath, chdir, emit, ret, throw.
  rewrite Hfix, Hwd. cbn [trace cwd]. fold resolvedWD. rewrite Hchdir.
  rewrite runNpmAudit_eq. cbn [trace cwd]. fold r. rewrite Hexec, Hparse.
  replace (((trace w
              ++ [Debug (js "Setting working directory to " ++ dquote ++ resolvedWD
                            ++ dquote ++ js ".")])
             ++ [Chdir resolvedWD])
            ++ [Debug (js "Running npm audit " ++ (if fix_ then js "fix" else [])
                          ++ ellipsis);
                Exec (auditCommand fix_)]
            ++ (if ToBoolean (JsString (stderr r))
                then [Debug (js "[npm audit]: " ++ stderr r)] else []))
    with (trace w ++ startupEvents resolvedWD fix_ r); [reflexivity|].
  unfold startupEvents. repeat rewrite <- app_assoc. cbn [app].
  destruct (stderr r); reflexivity.
Qed.

(** The whole trace of a run whose tool succeeds and whose output parses. *)
Lemma run_trace :
  exists v rest,
    (forall w', snd (formatNpmAuditOutput CSS_escape (innerAudit parsed) w') = inr v)
    /\ trace (fst (run CSS_escape host w))
       = trace w ++ startupEvents resolvedWD fix_ r
         ++ events (unwrapAuditFix parsed)
         ++ events (setIssueOutputs (innerAudit parsed))
         ++ [Info (js "Found "
                      ++ length_toString
                           (filter isFixable
                                   (Object_values
                                      (NPMAudit.vulnerabilities (innerAudit parsed))))
                      ++ js " fixable issues");
             SetOutput (js "markdown") v]
         ++ rest
    /\ forallb (fun e => negb (isSetOutput e)) rest = true.
Proof.
  destruct (formatNpmAuditOutput_eq CSS_escape (innerAudit parsed)) as [v Hv].
  rewrite run_after_parse. unfold afterParse.
  rewrite (try_catch_bind _ _ _ _ _ _ (unwrapAuditFix_eq _ _)).
  rewrite (try_catch_bind _ _ _ _ _ _ (setIssueOutputs_eq _ _)).
  rewrite (try_catch_bind _ _ _ _ _ _ (Hv _)).
  rewrite (try_catch_bind _ _ _ _ _ tt eq_refl).
  match goal with
  | |- context [try_catch (writeReport ?h ?o ?x) _ ?w0] =>
      destruct (writeReport_extends h o x w0) as (rest & Hrest & Hno)
  end.
  exists v, rest. split; [|split].
  - intros w'. now rewrite Hv.
  - unfold handler. rewrite Hrest. cbn [trace cwd].
    repeat rewrite <- app_assoc. reflexivity.
  - exact Hno.
Qed.

End Run.

Lemma filter_isFixable_truthy (l : list Vulnerability.t) :
  filter isFixable l = filter fixAvailable_truthy l.
Proof.
  apply filter_ext. intros v. unfold isFixable, fixAvailable_truthy.
  now destruct (Vulnerability.fixAvailable v).
Qed.

(** C9: when the tool succeeds and its output parses to a value with an
    [audit] field, [run] logs the added, removed, changed and audited
    counts of the envelope, and then sets issues-total, issues-fixable,
    issues-unfixable and markdown from the audit inside the envelope:
    the counters from its vulnerability mapping, markdown to what
    [formatNpmAuditOutput] yields for it. *)
Theorem run_unwraps_envelope :
  forall CSS_escape host w fix_ wd parsed,
    let resolvedWD := path_resolve host (cwd w) wd in
    let r := exec host resolvedWD (auditCommand fix_) in
    getBooleanInput host (js "fix") = inr fix_ ->
    or_env (getInput host (js "working-directory")) (GITHUB_WORKSPACE host) = Some wd ->
    chdir_error host resolvedWD = None ->
    error r = None ->
    JSON_parse host (slice (stdout r) (indexOf lbrace (stdout r))) = inr parsed ->
    isNPMAuditFix parsed = true ->
    exists f formattedOutput rest,
      parsed = AuditFix f
      /\ (forall w', snd (formatNpmAuditOutput CSS_escape (NPMAuditFix.audit f) w')
                     = inr formattedOutput)
      /\ forallb (fun e => negb (isSetOutput e)) rest = true
      /\ let issues := Object_values (NPMAudit.vulnerabilities (NPMAuditFix.audit f)) in
         trace (fst (run CSS_escape host w))
         = trace w ++ startupEvents resolvedWD fix_ r
           ++ [Info (js "[npm audit] Added   " ++ Number_toString (NPMAuditFix.added f)
                        ++ js " packages");
               Info (js "[npm audit] Removed " ++ Number_toString (NPMAuditFix.removed f)
                        ++ js " packages");
               Info (js "[npm audit] Changed " ++ Number_toString (NPMAuditFix.changed f)
                        ++ js " packages");
               Info (js "[npm audit] Audited " ++ Number_toString (NPMAuditFix.audited f)
                        ++ js " packages");
               SetOutput (js "issues-total") (JsNumber (NInt (Z.of_nat (length issues))));
               SetOutput (js "issues-fixable")
                         (JsNumber (NInt (Z.of_nat (length (filter isFixable issues)))));
               SetOutput (js "issues-unfixable")
                         (JsNumber (NInt (Z.of_nat (length issues)
                                          - Z.of_nat (length (filter isFixable issues)))));
               Info (js "Found " ++ length_toString (filter isFixable issues)
                        ++ js " fixable issues");
               SetOutput (js "markdown") formattedOutput]
           ++ rest.
Proof.
  intros CSS_escape host w fix_ wd parsed resolvedWD r Hfix Hwd Hchdir Hexec Hparse Hfixed.
  destruct parsed as [a|f]; [discriminate|].
  destruct (run_trace CSS_escape host w fix_ wd (AuditFix f) Hfix Hwd Hchdir Hexec Hparse)
    as (v & rest & Hv & Htrace & Hrest).
  exists f, v, rest. repeat split; [exact Hv | exact Hrest |].
  cbv zeta. rewrite Htrace. reflexivity.
Qed.

(** C6: in a run whose tool succeeds and whose output parses, the three
    counters are set once each, issues-total to the number of entries of
    the vulnerability mapping, issues-fixable to the number of entries
    whose [fixAvailable] is truthy, and issues-total is the sum of
    issues-fixable and issues-unfixable. *)
Theorem issue_counters :
  forall CSS_escape host w fix_ wd parsed,
    let resolvedWD := path_resolve host (cwd w) wd in
    let r := exec host resolvedWD (auditCommand fix_) in
    getBooleanInput host (js "fix") = inr fix_ ->
    or_env (getInput host (js "working-directory")) (GITHUB_WORKSPACE host) = Some wd ->
    chdir_error host resolvedWD = None ->
    error r = None ->
    JSON_parse host (slice (stdout r) (indexOf lbrace (stdout r))) = inr parsed ->
    exists total fixable unfixable before after,
      trace (fst (run CSS_escape host w))
      = trace w ++ before
        ++ [SetOutput (js "issues-total") (JsNumber (NInt total));
            SetOutput (js "issues-fixable") (JsNumber (NInt fixable));
            SetOutput (js "issues-unfixable") (JsNumber (NInt unfixable))]
        ++ after
      /\ forallb (fun e => negb (isSetOutput e)) before = true
      /\ (exists found formattedOutput rest,
             after = [Info found; SetOutput (js "markdown") formattedOutput] ++ rest
             /\ forallb (fun e => negb (isSetOutput e)) rest = true)
      /\ total = fixable + unfixable
      /\ total = Z.of_nat (length (NPMAudit.vulnerabilities (innerAudit parsed)))
      /\ fixable
         = Z.of_nat (length (filter fixAvailable_truthy
                                    (Object_values
                                       (NPMAudit.vulnerabilities (innerAudit parsed))))).
Proof.
  intros CSS_escape host w fix_ wd parsed resolvedWD r Hfix Hwd Hchdir Hexec Hparse.
  destruct (run_trace CSS_escape host w fix_ wd parsed Hfix Hwd Hchdir Hexec Hparse)
    as (v & rest & Hv & Htrace & Hrest).
  set (issues := Object_values (NPMAudit.vulnerabilities (innerAudit parsed))) in *.
  exists (Z.of_nat (length issues)), (Z.of_nat (length (filter isFixable issues))),
    (Z.of_nat (length issues) - Z.of_nat (length (filter isFixable issues))),
    (startupEvents resolvedWD fix_ r ++ events (unwrapAuditFix parsed)),
    ([Info (js "Found " ++ length_toString (filter isFixable issues)
               ++ js " fixable issues");
      SetOutput (js "markdown") v] ++ rest).
  split; [|split; [|split; [|split; [|split]]]].
  - rewrite Htrace. unfold events at 2, setIssueOutputs, bind, emit, ret.
    cbn [trace cwd fst app]. fold issues. repeat rewrite <- app_assoc. reflexivity.
  - rewrite forallb_app. apply andb_true_iff. split.
    + unfold startupEvents. rewrite forallb_app. now destruct (stderr r).
    + now destruct parsed.
  - exists (js "Found " ++ length_toString (filter isFixable issues)
               ++ js " fixable issues"), v, rest.
    split; [reflexivity | exact Hrest].
  - lia.
  - unfold issues. now rewrite Object_values_length.
  - now rewrite filter_isFixable_truthy.
Qed.

Lemma run_unwraps_envelope_witness :
  exists rest,
    trace (fst (run CSS.escape fixHost world0))
    = [Debug (js "Setting working directory to " ++ dquote ++ js "/ws" ++ dquote ++ js ".");
       Chdir (js "/ws");
       Debug (js "Running npm audit fix" ++ ellipsis);
       Exec (js "npm audit --json fix");
       Info (js "[npm audit] Added   3 packages");
       Info (js "[npm audit] Removed 1 packages");
       Info (js "[npm audit] Changed 2 packages");
       Info (js "[npm audit] Audited 120 packages");
       SetOutput (js "issues-total") (JsNumber (NInt 1));
       SetOutput (js "issues-fixable") (JsNumber (NInt 1));
       SetOutput (js "issues-unfixable") (JsNumber (NInt 0));
       Info (js "Found 1 fixable issues");
       SetOutput (js "markdown") JsUndefined]
      ++ rest.
Proof.
  destruct (run_unwraps_envelope CSS.escape fixHost world0 true (js "/ws")
              (AuditFix toughCookieFix)
              eq_refl eq_refl eq_refl eq_refl eq_refl eq_refl)
    as (f & v & rest & Hf & Hv & _ & Htrace).
  exists rest. injection Hf as <-.
  specialize (Hv world0). vm_compute in Hv. injection Hv as <-.
  rewrite Htrace. reflexivity.
Defined.

Lemma issue_counters_witness :
  exists before after,
    trace (fst (run CSS.escape auditHost world0))
    = before
      ++ [SetOutput (js "issues-total") (JsNumber (NInt 2));
          SetOutput (js "issues-fixable") (JsNumber (NInt 1));
          SetOutput (js "issues-unfixable") (JsNumber (NInt 1))]
      ++ after.
Proof.
  destruct (issue_counters CSS.escape auditHost world0 false (js "/ws")
              (Audit (auditOf [(js "foo", foo); (js "tough-cookie", toughCookie)]))
              eq_refl eq_refl eq_refl eq_refl eq_refl)
    as (total & fixable & unfixable & before & after & Htrace & _ & _ & Hsum & Ht & Hf).
  exists before, after. rewrite Htrace.
  cbn in Ht, Hf. subst total fixable.
  assert (unfixable = 1) as -> by lia. reflexivity.
Defined.

(** ** The guard on [output-path] *)

Section Guard.

Variable host : Host.
Variable outputPath ws : jsstring.
Variable w : World.

Hypothesis Hconfigured : ToBoolean (JsString outputPath) = true.
Hypothesis Hws : GITHUB_WORKSPACE host = Some ws.

(** A resolved path that does not begin with the text of the resolved
    workspace root fails the run, and nothing is written. *)
Lemma writeReport_rejects formattedOutput :
  startsWith (path_resolve host (cwd w) outputPath) (path_resolve host (cwd w) ws) = false ->
  writeReport host outputPath formattedOutput w
  = (mkWorld (trace w ++ [SetFailed (js "Invalid " ++ dquote ++ js "output-path" ++ dquote)])
             (cwd w),
     inr tt).
Proof.
  intros Hprefix. unfold writeReport, bind, resolvePath, emit.
  rewrite Hconfigured, Hws, Hprefix. reflexivity.
Qed.

(** A resolved path that begins with that text receives the report, when
    the formatter returned a string and the file system accepts it. *)
Lemma writeReport_writes markdown :
  startsWith (path_resolve host (cwd w) outputPath) (path_resolve host (cwd w) ws) = true ->
  writeFile_error host (path_resolve host (cwd w) outputPath) markdown = None ->
  writeReport host outputPath (JsString markdown) w
  = (mkWorld (trace w ++ [WriteFile (path_resolve host (cwd w) outputPath) markdown])
             (cwd w),
     inr tt).
Proof.
  intros Hprefix Hfs. unfold writeReport, bind, resolvePath, writeFile.
  rewrite Hconfigured, Hws, Hprefix. cbn [negb]. now rewrite Hfs.
Qed.

End Guard.

(** C3, in workspace [/ws] with output-path [../ws-evil/report.md]: the
    path resolves to [/ws-evil/report.md], which is not inside [/ws], yet
    the run does not fail and writes the report there. *)
Theorem output_path_sibling_escape :
  Posix.resolve (js "/ws") (js "../ws-evil/report.md") = js "/ws-evil/report.md"
  /\ isInside (js "/ws") (js "/ws-evil/report.md") = false
  /\ startsWith (js "/ws-evil/report.md") (js "/ws") = true
  /\ trace (fst (run CSS.escape siblingHost world0))
     = [Debug (js "Setting working directory to " ++ dquote ++ js "/ws" ++ dquote ++ js ".");
        Chdir (js "/ws");
        Debug (js "Running npm audit fix" ++ ellipsis);
        Exec (js "npm audit --json fix");
        SetOutput (js "issues-total") (JsNumber (NInt 0));
        SetOutput (js "issues-fixable") (JsNumber (NInt 0));
        SetOutput (js "issues-unfixable") (JsNumber (NInt 0));
        Info (js "Found 0 fixable issues");
        SetOutput (js "markdown")
                  (JsString (js "# Audit report" ++ nl
                                ++ js "No fixable problems found (0 unfixable)"));
        WriteFile (js "/ws-evil/report.md")
                  (js "# Audit report" ++ nl
                      ++ js "No fixable problems found (0 unfixable)")].
Proof. repeat split; vm_compute; reflexivity. Qed.

(** With a fixable finding the value handed to [writeFile] is
    [undefined]: the write inside the workspace is refused by Node and
    the run fails with that error. *)
Lemma report_of_fixable_not_written :
  isInside (js "/ws") (Posix.resolve (js "/ws") (js "pr-content.md")) = true
  /\ trace (fst (run CSS.escape reportHost world0))
     = [Debug (js "Setting working directory to " ++ dquote ++ js "/ws" ++ dquote ++ js ".");
        Chdir (js "/ws");
        Debug (js "Running npm audit fix" ++ ellipsis);
        Exec (js "npm audit --json fix");
        SetOutput (js "issues-total") (JsNumber (NInt 1));
        SetOutput (js "issues-fixable") (JsNumber (NInt 1));
        SetOutput (js "issues-unfixable") (JsNumber (NInt 0));
        Info (js "Found 1 fixable issues");
        SetOutput (js "markdown") JsUndefined;
        SetFailed (js "The " ++ dquote ++ js "data" ++ dquote
                      ++ js " argument must be of type string or an instance of Buffer, TypedArray, or DataView. Received undefined")].
Proof. split; vm_compute; reflexivity. Qed.

(** ** The failure paths of [run] *)

Section RunFailures.

Variable CSS_escape : jsstring -> jsstring.
Variable host : Host.
Variable w : World.

Lemma run_invalid_fix e :
  getBooleanInput host (js "fix") = inl e ->
  run CSS_escape host w = (mkWorld (trace w ++ [SetFailed (message e)]) (cwd w), inr tt).
Proof.
  intros Hfix. unfold run, try_catch, bind, liftE, throw, emit.
  rewrite Hfix. reflexivity.
Qed.

Lemma run_no_directory fix_ :
  getBooleanInput host (js "fix") = inr fix_ ->
  or_env (getInput host (js "working-directory")) (GITHUB_WORKSPACE host) = None ->
  run CSS_escape host w
  = (mkWorld (trace w ++ [SetFailed (message (invalid_arg_type host (js "paths[0]")))])
             (cwd w),
     inr tt).
Proof.
  intros Hfix Hwd. unfold run, try_catch, bind, liftE, resolvePath, ret, throw, emit.
  rewrite Hfix, Hwd. reflexivity.
Qed.

Lemma run_chdir_fails fix_ wd e :
  getBooleanInput host (js "fix") = inr fix_ ->
  or_env (getInput host (js "working-directory")) (GITHUB_WORKSPACE host) = Some wd ->
  chdir_error host (path_resolve host (cwd w) wd) = Some e ->
  run CSS_escape host w
  = (mkWorld (trace w
              ++ [Debug (js "Setting working directory to " ++ dquote
                            ++ path_resolve host (cwd w) wd ++ dquote ++ js ".");
                  SetFailed (message e)])
             (cwd w),
     inr tt).
Proof.
  intros Hfix Hwd Hchdir.
  unfold run, try_catch, bind, liftE, resolvePath, chdir, ret, throw, emit.
  rewrite Hfix, Hwd. cbn [trace cwd]. rewrite Hchdir. cbn [trace cwd].
  now rewrite <- app_assoc.
Qed.

Lemma startup_trace (fix_ : bool) (wd : jsstring) :
  ((trace w
      ++ [Debug (js "Setting working directory to " ++ dquote
                    ++ path_resolve host (cwd w) wd ++ dquote ++ js ".")])
     ++ [Chdir (path_resolve host (cwd w) wd)])
    ++ [Debug (js "Running npm audit " ++ (if fix_ then js "fix" else []) ++ ellipsis);
        Exec (auditCommand fix_)]
    ++ (if ToBoolean (JsString (stderr (exec host (path_resolve host (cwd w) wd)
                                             (auditCommand fix_))))
        then [Debug (js "[npm audit]: "
                        ++ stderr (exec host (path_resolve host (cwd w) wd)
                                        (auditCommand fix_)))]
        else [])
  = trace w
    ++ startupEvents (path_resolve host (cwd w) wd) fix_
                     (exec host (path_resolve host (cwd w) wd) (auditCommand fix_)).
Proof.
  unfold startupEvents. repeat rewrite <- app_assoc. cbn [app].
  now destruct (stderr (exec host (path_resolve host (cwd w) wd) (auditCommand fix_))).
Qed.

Section AfterChdir.

Variable fix_ : bool.
Variable wd : jsstring.

Let resolvedWD := path_resolve host (cwd w) wd.
Let r := exec host resolvedWD (auditCommand fix_).

Hypothesis Hfix : getBooleanInput host (js "fix") = inr fix_.
Hypothesis Hwd :
  or_env (getInput host (js "working-directory")) (GITHUB_WORKSPACE host) = Some wd.
Hypothesis Hchdir : chdir_error host resolvedWD = None.

Lemma run_tool_fails e :
  error r = Some e ->
  run CSS_escape host w
  = (mkWorld (trace w ++ startupEvents resolvedWD fix_ r ++ [SetFailed (message e)])
             resolvedWD,
     inr tt).
Proof.
  intros Hexec. unfold run, try_catch, bind, liftE, resolvePath, chdir, ret, throw, emit.
  rewrite Hfix, Hwd. cbn [trace cwd]. fold resolvedWD. rewrite Hchdir.
  rewrite runNpmAudit_eq. cbn [trace cwd]. fold r. rewrite Hexec.
  unfold r, resolvedWD. cbn [trace cwd]. rewrite startup_trace.
  now rewrite <- app_assoc.
Qed.

Lemma run_parse_fails e :
  error r = None ->
  JSON_parse host (slice (stdout r) (indexOf lbrace (stdout r))) = inl e ->
  run CSS_escape host w
  = (mkWorld (trace w ++ startupEvents resolvedWD fix_ r ++ [SetFailed (message e)])
             resolvedWD,
     inr tt).
Proof.
  intros Hexec Hparse.
  unfold run, try_catch, bind, liftE, resolvePath, chdir, ret, throw, emit.
  rewrite Hfix, Hwd. cbn [trace cwd]. fold resolvedWD. rewrite Hchdir.
  rewrite runNpmAudit_eq. cbn [trace cwd]. fold r. rewrite Hexec, Hparse.
  unfold r, resolvedWD. cbn [trace cwd]. rewrite startup_trace.
  now rewrite <- app_assoc.
Qed.

(** From a parsed audit on, what is left of [run] is the block that
    writes the report. *)
Lemma run_to_report parsed :
  error r = None ->
  JSON_parse host (slice (stdout r) (indexOf lbrace (stdout r))) = inr parsed ->
  exists v,
    (forall w', snd (formatNpmAuditOutput CSS_escape (innerAudit parsed) w') = inr v)
    /\ run CSS_escape host w
       = try_catch (writeReport host (getInput host (js "output-path")) v)
                   (fun error => emit (SetFailed (message error)))
                   (mkWorld
                      (trace w ++ startupEvents resolvedWD fix_ r
                       ++ events (unwrapAuditFix parsed)
                       ++ events (setIssueOutputs (innerAudit parsed))
                       ++ [Info (js "Found "
                                    ++ length_toString
                                         (filter isFixable
                                            (Object_values
                                               (NPMAudit.vulnerabilities
                                                  (innerAudit parsed))))
                                    ++ js " fixable issues");
                           SetOutput (js "markdown") v])
                      resolvedWD).
Proof.
  intros Hexec Hparse.
  destruct (formatNpmAuditOutput_eq CSS_escape (innerAudit parsed)) as [v Hv].
  exists v. split; [intros w'; now rewrite Hv|].
  rewrite (run_after_parse CSS_escape host w fix_ wd parsed Hfix Hwd Hchdir Hexec Hparse).
  unfold afterParse.
  rewrite (try_catch_bind _ _ _ _ _ _ (unwrapAuditFix_eq _ _)).
  rewrite (try_catch_bind _ _ _ _ _ _ (setIssueOutputs_eq _ _)).
  rewrite (try_catch_bind _ _ _ _ _ _ (Hv _)).
  rewrite (try_catch_bind _ _ _ _ _ tt eq_refl).
  cbn [trace cwd]. repeat rewrite <- app_assoc. reflexivity.
Qed.

End AfterChdir.

End RunFailures.

(** ** Every run *)

(** What the report block and the handler add to the trace. *)
Lemma writeReport_cases host outputPath v w :
  exists tail,
    try_catch (writeReport host outputPath v)
              (fun error => emit (SetFailed (message error))) w
    = (mkWorld (trace w ++ tail) (cwd w), inr tt)
    /\ ((outputPath = [] /\ tail = [])
        \/ (exists m, outputPath <> [] /\ tail = [SetFailed m])
        \/ (exists ws d,
               outputPath <> [] /\ v = JsString d /\ GITHUB_WORKSPACE host = Some ws
               /\ startsWith (path_resolve host (cwd w) outputPath)
                             (path_resolve host (cwd w) ws) = true
               /\ tail = [WriteFile (path_resolve host (cwd w) outputPath) d])).
Proof.
  unfold try_catch, writeReport, bind, resolvePath, writeFile, emit, throw, ret.
  destruct outputPath as [|c op]; cbn [ToBoolean].
  - exists []. split; [destruct w; cbn; now rewrite app_nil_r | now left].
  - destruct (GITHUB_WORKSPACE host) as [ws|] eqn:Hws;
      [|eexists; split; [reflexivity | right; left; eexists; split; [discriminate|reflexivity]]].
    destruct (startsWith _ _) eqn:Hprefix; cbn [negb];
      [|eexists; split; [reflexivity | right; left; eexists; split; [discriminate|reflexivity]]].
    destruct v as [| |b|n|d|];
      try (eexists; split;
           [reflexivity | right; left; eexists; split; [discriminate|reflexivity]]).
    destruct (writeFile_error host _ d);
      [eexists; split; [reflexivity | right; left; eexists; split; [discriminate|reflexivity]]|].
    eexists. split; [reflexivity|]. right; right. exists ws, d.
    repeat split; [discriminate | exact Hprefix].
Qed.

(** The shapes a run can take: it fails before the tool runs, it fails
    on the tool or on its output, or it sets the four outputs and ends
    with the report block. *)
Lemma run_cases CSS_escape host w :
  exists evs c,
    run CSS_escape host w = (mkWorld (trace w ++ evs) c, inr tt)
    /\ ((exists m, evs = [SetFailed m])
        \/ (exists d m, evs = [Debug d; SetFailed m])
        \/ (exists dir fix_ r m, evs = startupEvents dir fix_ r ++ [SetFailed m])
        \/ (exists dir fix_ r parsed found v tail,
               evs = startupEvents dir fix_ r
                     ++ events (unwrapAuditFix parsed)
                     ++ events (setIssueOutputs (innerAudit parsed))
                     ++ [Info found; SetOutput (js "markdown") v]
                     ++ tail
               /\ (tail = []
                   \/ (exists m, tail = [SetFailed m])
                   \/ (exists ws d,
                          v = JsString d /\ GITHUB_WORKSPACE host = Some ws
                          /\ startsWith
                               (path_resolve host dir (getInput host (js "output-path")))
                               (path_resolve host dir ws) = true
                          /\ tail
                             = [WriteFile
                                  (path_resolve host dir (getInput host (js "output-path")))
                                  d])))).
Proof.
  destruct (getBooleanInput host (js "fix")) as [e|fix_] eqn:Hfix.
  { do 2 eexists. split; [exact (run_invalid_fix _ _ _ e Hfix) | left; now eexists]. }
  destruct (or_env (getInput host (js "working-directory")) (GITHUB_WORKSPACE host))
    as [wd|] eqn:Hwd.
  2:{ do 2 eexists. split; [exact (run_no_directory _ _ _ fix_ Hfix Hwd) | left; now eexists]. }
  destruct (chdir_error host (path_resolve host (cwd w) wd)) as [e|] eqn:Hchdir.
  { do 2 eexists. split; [exact (run_chdir_fails _ _ _ fix_ wd e Hfix Hwd Hchdir)|].
    right; left. now do 2 eexists. }
  destruct (error (exec host (path_resolve host (cwd w) wd) (auditCommand fix_)))
    as [e|] eqn:Hexec.
  { do 2 eexists. split; [exact (run_tool_fails _ _ _ fix_ wd Hfix Hwd Hchdir e Hexec)|].
    right; right; left. now do 4 eexists. }
  set (r := exec host (path_resolve host (cwd w) wd) (auditCommand fix_)) in *.
  destruct (JSON_parse host (slice (stdout r) (indexOf lbrace (stdout r))))
    as [e|parsed] eqn:Hparse.
  { do 2 eexists.
    split; [exact (run_parse_fails _ _ _ fix_ wd Hfix Hwd Hchdir e Hexec Hparse)|].
    right; right; left. now do 4 eexists. }
  destruct (run_to_report CSS_escape host w fix_ wd Hfix Hwd Hchdir parsed Hexec Hparse)
    as (v & _ & Hrun).
  match type of Hrun with
  | _ = try_catch (writeReport ?h ?o ?x) _ ?w0 =>
      destruct (writeReport_cases h o x w0) as (tail & Htail & Hcases)
  end.
  rewrite Htail in Hrun. cbn [trace cwd] in Hrun, Hcases.
  do 2 eexists. split.
  - rewrite Hrun. repeat rewrite <- app_assoc. reflexivity.
  - right; right; right. do 7 eexists. split; [reflexivity|].
    destruct Hcases as [[_ ->]|[(m & _ & ->)|(ws & d & _ & -> & Hws & Hprefix & ->)]].
    + now left.
    + right; left. now eexists.
    + right; right. exists ws, d. now repeat split.
Qed.

Ltac run_shapes CSS_escape host w evs Hrun :=
  let c := fresh "c" in
  let Hshape := fresh "Hshape" in
  destruct (run_cases CSS_escape host w) as (evs & c & Hrun & Hshape);
  destruct Hshape
    as [(? & ->)
       |[(? & ? & ->)
        |[(? & ? & ? & ? & ->)
         |(? & ? & ? & parsed & ? & ? & ? & -> &
           [->|[(? & ->)|(? & ? & -> & ? & ? & ->)]])]]];
  unfold startupEvents, events in Hrun;
  try (destruct parsed; cbn [unwrapAuditFix] in Hrun);
  unfold setIssueOutputs, bind, emit, ret in Hrun; cbn [trace cwd fst app] in Hrun;
  repeat match type of Hrun with
         | context [stderr ?r] => destruct (stderr r)
         end.

(** X1: [run] never rejects: whatever its collaborators do, the call
    ends normally; and when it marks the run as failed it does so once,
    as the last thing it does. *)
Theorem run_failure_is_final :
  forall CSS_escape host w,
  exists evs,
    snd (run CSS_escape host w) = inr tt
    /\ trace (fst (run CSS_escape host w)) = trace w ++ evs
    /\ forallb (fun e => negb (isSetFailed e)) (removelast evs) = true.
Proof.
  intros CSS_escape host w.
  run_shapes CSS_escape host w evs Hrun;
    (eexists; rewrite Hrun; split; [reflexivity | split; [reflexivity|reflexivity]]).
Qed.

(** X2: the outputs are set all or none: a run sets no output at all, or
    issues-total, issues-fixable, issues-unfixable and markdown, once each
    and in this order; a run that is not marked as failed has set the
    four. *)
Theorem run_outputs_all_or_none :
  forall CSS_escape host w,
  exists evs,
    trace (fst (run CSS_escape host w)) = trace w ++ evs
    /\ (outputNames evs = [] \/ outputNames evs = fourOutputs)
    /\ (forallb (fun e => negb (isSetFailed e)) evs = true -> outputNames evs = fourOutputs).
Proof.
  intros CSS_escape host w.
  run_shapes CSS_escape host w evs Hrun;
    (eexists; rewrite Hrun; split; [reflexivity|];
     split; [first [left; reflexivity | right; reflexivity]
            | first [reflexivity | discriminate]]).
Qed.

Lemma run_outputs_all_or_none_witness :
  outputNames (trace (fst (run CSS.escape unfixableReportHost wsWorld))) = fourOutputs.
Proof.
  destruct (run_outputs_all_or_none CSS.escape unfixableReportHost wsWorld)
    as (evs & Htrace & _ & Hok).
  cbn [trace wsWorld app] in Htrace. rewrite Htrace. apply Hok.
  rewrite <- Htrace. vm_compute. reflexivity.
Defined.

(** X3: [run] changes directory before it runs the tool, runs the tool
    at most once, and writes at most one file, after the tool has run. *)
Theorem run_effects_in_order :
  forall CSS_escape host w,
  exists evs,
    trace (fst (run CSS_escape host w)) = trace w ++ evs
    /\ (effects evs = []
        \/ (exists dir fix_, effects evs = [Chdir dir; Exec (auditCommand fix_)])
        \/ (exists dir fix_ path data,
               effects evs = [Chdir dir; Exec (auditCommand fix_); WriteFile path data])).
Proof.
  intros CSS_escape host w.
  run_shapes CSS_escape host w evs Hrun;
    (eexists; rewrite Hrun; split; [reflexivity|];
     first [left; reflexivity
           | right; left; do 2 eexists; reflexivity
           | right; right; do 4 eexists; reflexivity]).
Qed.

(** X4: a file is written only under the guard: when [run] writes a
    file, the workspace is known, the path is the output-path resolved
    from the directory [run] changed to, that path begins with the text of
    the resolved workspace root, the data is the string set as the
    markdown output, and the run is not marked as failed. *)
Theorem run_write_is_guarded :
  forall CSS_escape host w,
  exists evs,
    trace (fst (run CSS_escape host w)) = trace w ++ evs
    /\ forall path data,
        In (WriteFile path data) evs ->
        exists ws dir,
          GITHUB_WORKSPACE host = Some ws
          /\ In (Chdir dir) evs
          /\ path = path_resolve host dir (getInput host (js "output-path"))
          /\ startsWith path (path_resolve host dir ws) = true
          /\ In (SetOutput (js "markdown") (JsString data)) evs
          /\ forallb (fun e => negb (isSetFailed e)) evs = true.
Proof.
  intros CSS_escape host w.
  run_shapes CSS_escape host w evs Hrun;
    (eexists; rewrite Hrun; split; [reflexivity|];
     intros path data Hin; cbn [In] in Hin;
     repeat (destruct Hin as [Hin|Hin]; [try discriminate Hin|]);
     try contradiction;
     injection Hin as <- <-;
     match goal with
     | Hws : GITHUB_WORKSPACE host = Some ?ws,
       Hp : startsWith (path_resolve host ?dir _) _ = true |- _ =>
         exists ws, dir;
         split; [exact Hws|];
         split; [cbn [In app]; tauto|];
         split; [reflexivity|];
         split; [exact Hp|];
         split; [cbn [In app]; tauto | reflexivity]
     end).
Qed.

Lemma run_write_is_guarded_witness :
  exists ws dir,
    GITHUB_WORKSPACE unfixableReportHost = Some ws
    /\ js "/ws/pr-content.md"
       = path_resolve unfixableReportHost dir
                      (getInput unfixableReportHost (js "output-path"))
    /\ startsWith (js "/ws/pr-content.md") (path_resolve unfixableReportHost dir ws) = true.
Proof.
  destruct (run_write_is_guarded CSS.escape unfixableReportHost wsWorld)
    as (evs & Htrace & Hguard).
  destruct (Hguard (js "/ws/pr-content.md")
                   (js "# Audit report" ++ nl
                       ++ js "No fixable problems found (1 unfixable)"))
    as (ws & dir & Hws & _ & Hpath & Hprefix & _).
  - cbn [trace wsWorld app] in Htrace. rewrite <- Htrace. vm_compute. tauto.
  - exists ws, dir. repeat split; assumption.
Defined.

Lemma try_catch_ok {A} (c : Action A) h w w' a :
  c w = (w', inr a) -> try_catch c h w = (w', inr a).
Proof. intros H. unfold try_catch. now rewrite H. Qed.

Lemma formatNpmAuditOutput_unfixable CSS_escape data w :
  existsb isFixable (Object_values (NPMAudit.vulnerabilities data)) = false ->
  snd (formatNpmAuditOutput CSS_escape data w)
  = inr (JsString (js "# Audit report" ++ nl ++ js "No fixable problems found ("
                      ++ length_toString (NPMAudit.vulnerabilities data)
                      ++ js " unfixable)")).
Proof.
  intros H. unfold formatNpmAuditOutput, bind, emit, ret.
  assert (Hnone : filter isFixable (Object_values (NPMAudit.vulnerabilities data)) = []).
  { apply filter_isFixable_none. apply Forall_forall. intros v Hv.
    destruct (isFixable v) eqn:E; [|reflexivity].
    assert (existsb isFixable (Object_values (NPMAudit.vulnerabilities data)) = true)
      by (apply existsb_exists; now exists v).
    congruence. }
  rewrite Hnone. cbn [length Nat.eqb snd]. unfold length_toString.
  rewrite Object_values_length. now repeat rewrite <- app_assoc.
Qed.

Lemma filter_isFixable_some (l : list Vulnerability.t) :
  existsb isFixable l = true -> filter isFixable l <> [].
Proof.
  intros H. apply existsb_exists in H as (v & Hin & Hv).
  intros Hnil. assert (Hf : In v (filter isFixable l)) by (apply filter_In; now split).
  rewrite Hnil in Hf. contradiction.
Qed.

(** X5: what [formatNpmAuditOutput] does for any audit: it logs the one
    line "Found N fixable issues", N being the number of fixable entries,
    it does not throw, and its value is [undefined] exactly when the
    audit has a fixable entry; otherwise it is the "No fixable problems"
    text. *)
Theorem formatNpmAuditOutput_result :
  forall CSS_escape data w,
  exists v,
    formatNpmAuditOutput CSS_escape data w
    = (mkWorld (trace w
                ++ [Info (js "Found "
                             ++ length_toString
                                  (filter isFixable
                                          (Object_values (NPMAudit.vulnerabilities data)))
                             ++ js " fixable issues")])
               (cwd w),
       inr v)
    /\ (v = JsUndefined
        <-> existsb isFixable (Object_values (NPMAudit.vulnerabilities data)) = true)
    /\ (v <> JsUndefined ->
        v = JsString (js "# Audit report" ++ nl ++ js "No fixable problems found ("
                         ++ length_toString (NPMAudit.vulnerabilities data)
                         ++ js " unfixable)")).
Proof.
  intros CSS_escape data w.
  destruct (formatNpmAuditOutput_eq CSS_escape data) as [v Hv].
  exists v. split; [apply Hv|].
  destruct (existsb isFixable (Object_values (NPMAudit.vulnerabilities data))) eqn:E.
  - pose proof (formatNpmAuditOutput_fixable CSS_escape data w
                  (filter_isFixable_some _ E)) as Hf.
    rewrite Hv in Hf. injection Hf as ->. split; [tauto | congruence].
  - pose proof (formatNpmAuditOutput_unfixable CSS_escape data w E) as Hu.
    rewrite Hv in Hu. cbn [snd] in Hu. injection Hu as ->.
    split; [split; discriminate | reflexivity].
Qed.

Lemma formatNpmAuditOutput_result_witness :
  snd (formatNpmAuditOutput CSS.escape (auditOf [(js "foo", foo)]) world0)
  = inr (JsString (js "# Audit report" ++ nl
                      ++ js "No fixable problems found (1 unfixable)")).
Proof.
  destruct (formatNpmAuditOutput_result CSS.escape (auditOf [(js "foo", foo)]) world0)
    as (v & Heq & Hiff & Htext).
  rewrite Heq. cbn [snd]. f_equal. apply Htext.
  intros Hu. apply Hiff in Hu. vm_compute in Hu. discriminate.
Defined.

(** ** Runs that fail before the outputs *)

(** X6: a run that cannot set itself up does nothing else: with a [fix]
    input that is no boolean, or with neither a working-directory input
    nor a workspace, the only event is the failure with the error's
    message; when the directory cannot be entered, the debug line and the
    failure.  The tool is not run. *)
Theorem run_setup_failure :
  forall CSS_escape host w,
    (forall e,
        getBooleanInput host (js "fix") = inl e ->
        trace (fst (run CSS_escape host w)) = trace w ++ [SetFailed (message e)])
    /\ (forall fix_,
           getBooleanInput host (js "fix") = inr fix_ ->
           getInput host (js "working-directory") = [] ->
           GITHUB_WORKSPACE host = None ->
           trace (fst (run CSS_escape host w))
           = trace w ++ [SetFailed (message (invalid_arg_type host (js "paths[0]")))])
    /\ (forall fix_ wd e,
           getBooleanInput host (js "fix") = inr fix_ ->
           or_env (getInput host (js "working-directory")) (GITHUB_WORKSPACE host)
           = Some wd ->
           chdir_error host (path_resolve host (cwd w) wd) = Some e ->
           trace (fst (run CSS_escape host w))
           = trace w
             ++ [Debug (js "Setting working directory to " ++ dquote
                           ++ path_resolve host (cwd w) wd ++ dquote ++ js ".");
                 SetFailed (message e)]).
Proof.
  intros CSS_escape host w. split; [|split].
  - intros e Hfix. now rewrite (run_invalid_fix CSS_escape host w e Hfix).
  - intros fix_ Hfix Hinput Hws.
    rewrite (run_no_directory CSS_escape host w fix_ Hfix); [reflexivity|].
    now rewrite Hinput, Hws.
  - intros fix_ wd e Hfix Hwd Hchdir.
    now rewrite (run_chdir_fails CSS_escape host w fix_ wd e Hfix Hwd Hchdir).
Qed.

Lemma run_setup_failure_witness :
  trace (fst (run CSS.escape badFixHost world0))
  = [SetFailed (js "Input does not meet YAML 1.2 " ++ dquote ++ js "Core Schema" ++ dquote
                   ++ js " specification: fix")]
  /\ trace (fst (run CSS.escape noDirectoryHost world0))
     = [SetFailed (js "The " ++ dquote ++ js "paths[0]" ++ dquote
                      ++ js " argument must be of type string. Received undefined")]
  /\ trace (fst (run CSS.escape missingDirectoryHost wsWorld))
     = [Debug (js "Setting working directory to " ++ dquote ++ js "/ws/packages/app"
                  ++ dquote ++ js ".");
        SetFailed (js "ENOENT: no such file or directory, chdir '/ws' -> '/ws/packages/app'")].
Proof.
  split; [|split].
  - apply (proj1 (run_setup_failure CSS.escape badFixHost world0)
             (mkError (js "Input does not meet YAML 1.2 " ++ dquote ++ js "Core Schema"
                          ++ dquote ++ js " specification: fix"))).
    reflexivity.
  - apply (proj1 (proj2 (run_setup_failure CSS.escape noDirectoryHost world0)) true);
      reflexivity.
  - apply (proj2 (proj2 (run_setup_failure CSS.escape missingDirectoryHost wsWorld))
             true (js "packages/app")
             (mkError (js "ENOENT: no such file or directory, chdir '/ws' -> '/ws/packages/app'")));
      reflexivity.
Defined.

(** X7: when the tool fails, [run] ends marked as failed with the
    message of the tool's error, after the debug lines of the start and of
    the tool's stderr; it sets no output and writes nothing. *)
Theorem run_tool_failure :
  forall CSS_escape host w fix_ wd e,
    let resolvedWD := path_resolve host (cwd w) wd in
    let r := exec host resolvedWD (auditCommand fix_) in
    getBooleanInput host (js "fix") = inr fix_ ->
    or_env (getInput host (js "working-directory")) (GITHUB_WORKSPACE host) = Some wd ->
    chdir_error host resolvedWD = None ->
    error r = Some e ->
    trace (fst (run CSS_escape host w))
    = trace w ++ startupEvents resolvedWD fix_ r ++ [SetFailed (message e)].
Proof.
  intros CSS_escape host w fix_ wd e resolvedWD r Hfix Hwd Hchdir Hexec.
  now rewrite (run_tool_fails CSS_escape host w fix_ wd Hfix Hwd Hchdir e Hexec).
Qed.

Lemma run_tool_failure_witness :
  trace (fst (run CSS.escape failingToolHost world0))
  = [Debug (js "Setting working directory to " ++ dquote ++ js "/ws" ++ dquote ++ js ".");
     Chdir (js "/ws");
     Debug (js "Running npm audit " ++ ellipsis);
     Exec (js "npm audit --json ");
     Debug (js "[npm audit]: npm error code ENOLOCK");
     SetFailed (js "Command failed: npm audit --json ")].
Proof.
  apply (run_tool_failure CSS.escape failingToolHost world0 false (js "/ws")
           (mkError (js "Command failed: npm audit --json ")));
    reflexivity.
Defined.

(** X8: when the text [runNpmAudit] resolves with does not parse, [run]
    ends marked as failed with the message of the parse error; it sets no
    output and writes nothing. *)
Theorem run_parse_failure :
  forall CSS_escape host w fix_ wd e,
    let resolvedWD := path_resolve host (cwd w) wd in
    let r := exec host resolvedWD (auditCommand fix_) in
    getBooleanInput host (js "fix") = inr fix_ ->
    or_env (getInput host (js "working-directory")) (GITHUB_WORKSPACE host) = Some wd ->
    chdir_error host resolvedWD = None ->
    error r = None ->
    JSON_parse host (slice (stdout r) (indexOf lbrace (stdout r))) = inl e ->
    trace (fst (run CSS_escape host w))
    = trace w ++ startupEvents resolvedWD fix_ r ++ [SetFailed (message e)].
Proof.
  intros CSS_escape host w fix_ wd e resolvedWD r Hfix Hwd Hchdir Hexec Hparse.
  now rewrite (run_parse_fails CSS_escape host w fix_ wd Hfix Hwd Hchdir e Hexec Hparse).
Qed.

Lemma run_parse_failure_witness :
  trace (fst (run CSS.escape unparsableHost world0))
  = [Debug (js "Setting working directory to " ++ dquote ++ js "/ws" ++ dquote ++ js ".");
     Chdir (js "/ws");
     Debug (js "Running npm audit " ++ ellipsis);
     Exec (js "npm audit --json ");
     SetFailed (js "Unexpected end of JSON input")].
Proof.
  apply (run_parse_failure CSS.escape unparsableHost world0 false (js "/ws")
           (mkError (js "Unexpected end of JSON input")));
    reflexivity.
Defined.

(** ** Runs that reach the report block *)

Section ReportBlock.

Variable CSS_escape : jsstring -> jsstring.
Variable host : Host.
Variable w : World.
Variable fix_ : bool.
Variable wd : jsstring.
Variable parsed : AuditData.

Let resolvedWD := path_resolve host (cwd w) wd.
Let r := exec host resolvedWD (auditCommand fix_).
Let outputPath := getInput host (js "output-path").
Let issues := Object_values (NPMAudit.vulnerabilities (innerAudit parsed)).

(** The events up to and including the log line of the formatter. *)
Let reported : list Event :=
  startupEvents resolvedWD fix_ r
  ++ events (unwrapAuditFix parsed)
  ++ events (setIssueOutputs (innerAudit parsed))
  ++ [Info (js "Found " ++ length_toString (filter isFixable issues)
               ++ js " fixable issues")].

Let noFixableText : jsstring :=
  js "# Audit report" ++ nl ++ js "No fixable problems found ("
     ++ length_toString (NPMAudit.vulnerabilities (innerAudit parsed))
     ++ js " unfixable)".

Hypothesis Hfix : getBooleanInput host (js "fix") = inr fix_.
Hypothesis Hwd :
  or_env (getInput host (js "working-directory")) (GITHUB_WORKSPACE host) = Some wd.
Hypothesis Hchdir : chdir_error host resolvedWD = None.
Hypothesis Hexec : error r = None.
Hypothesis Hparse :
  JSON_parse host (slice (stdout r) (indexOf lbrace (stdout r))) = inr parsed.

Lemma run_report_block :
  exists v,
    (forall w', snd (formatNpmAuditOutput CSS_escape (innerAudit parsed) w') = inr v)
    /\ run CSS_escape host w
       = try_catch (writeReport host outputPath v)
                   (fun error => emit (SetFailed (message error)))
                   (mkWorld (trace w ++ reported ++ [SetOutput (js "markdown") v])
                            resolvedWD).
Proof.
  destruct (run_to_report CSS_escape host w fix_ wd Hfix Hwd Hchdir parsed Hexec Hparse)
    as (v & Hv & Hrun).
  exists v. split; [exact Hv|]. rewrite Hrun. unfold reported, issues.
  repeat rewrite <- app_assoc. reflexivity.
Qed.

(** X9: without an output-path the run ends with the markdown output:
    nothing is written and the run is not marked as failed, whether or not
    the workspace is known. *)
Theorem run_without_output_path :
  outputPath = [] ->
  exists formattedOutput,
    (forall w', snd (formatNpmAuditOutput CSS_escape (innerAudit parsed) w')
                = inr formattedOutput)
    /\ trace (fst (run CSS_escape host w))
       = trace w ++ reported ++ [SetOutput (js "markdown") formattedOutput].
Proof.
  intros Hnone. destruct run_report_block as (v & Hv & Hrun).
  exists v. split; [exact Hv|]. rewrite Hrun, Hnone. reflexivity.
Qed.

(** X10: an output-path whose resolved text does not begin with the text
    of the resolved workspace root fails the run with the message Invalid
    "output-path", after the four outputs were set; nothing is written. *)
Theorem run_rejects_output_path :
  forall ws,
    ToBoolean (JsString outputPath) = true ->
    GITHUB_WORKSPACE host = Some ws ->
    startsWith (path_resolve host resolvedWD outputPath) (path_resolve host resolvedWD ws)
    = false ->
    exists formattedOutput,
      (forall w', snd (formatNpmAuditOutput CSS_escape (innerAudit parsed) w')
                  = inr formattedOutput)
      /\ trace (fst (run CSS_escape host w))
         = trace w ++ reported
           ++ [SetOutput (js "markdown") formattedOutput;
               SetFailed (js "Invalid " ++ dquote ++ js "output-path" ++ dquote)].
Proof.
  intros ws Hset Hws Hprefix. destruct run_report_block as (v & Hv & Hrun).
  exists v. split; [exact Hv|]. rewrite Hrun.
  erewrite try_catch_ok.
  2:{ apply (writeReport_rejects host outputPath ws);
        [exact Hset|exact Hws|exact Hprefix]. }
  cbn [fst trace]. repeat rewrite <- app_assoc. reflexivity.
Qed.

(** X11: when no entry is fixable, the output-path passes the prefix
    test and the file system accepts the write, the "No fixable problems"
    text is set as markdown and written, as it is, to the output-path
    resolved from the working directory of the run. *)
Theorem run_writes_report :
  forall ws,
    ToBoolean (JsString outputPath) = true ->
    GITHUB_WORKSPACE host = Some ws ->
    startsWith (path_resolve host resolvedWD outputPath) (path_resolve host resolvedWD ws)
    = true ->
    existsb isFixable issues = false ->
    writeFile_error host (path_resolve host resolvedWD outputPath) noFixableText = None ->
    trace (fst (run CSS_escape host w))
    = trace w ++ reported
      ++ [SetOutput (js "markdown") (JsString noFixableText);
          WriteFile (path_resolve host resolvedWD outputPath) noFixableText].
Proof.
  intros ws Hset Hws Hprefix Hnone Hfs. destruct run_report_block as (v & Hv & Hrun).
  pose proof (formatNpmAuditOutput_unfixable CSS_escape (innerAudit parsed) w Hnone) as Hu.
  rewrite Hv in Hu. injection Hu as ->. fold noFixableText in Hrun.
  rewrite Hrun. erewrite try_catch_ok.
  2:{ apply (writeReport_writes host outputPath ws);
        [exact Hset|exact Hws|exact Hprefix|exact Hfs]. }
  cbn [fst trace]. repeat rewrite <- app_assoc. reflexivity.
Qed.

(** X12: when an entry is fixable and the output-path passes the prefix
    test, the value handed to [writeFile] is [undefined]: the markdown
    output is set to [undefined], nothing is written, and the run fails
    with the [TypeError] of [writeFile]. *)
Theorem run_cannot_write_fixable_report :
  forall ws,
    ToBoolean (JsString outputPath) = true ->
    GITHUB_WORKSPACE host = Some ws ->
    startsWith (path_resolve host resolvedWD outputPath) (path_resolve host resolvedWD ws)
    = true ->
    existsb isFixable issues = true ->
    trace (fst (run CSS_escape host w))
    = trace w ++ reported
      ++ [SetOutput (js "markdown") JsUndefined;
          SetFailed (message (invalid_arg_type host (js "data")))].
Proof.
  intros ws Hset Hws Hprefix Hsome. destruct run_report_block as (v & Hv & Hrun).
  pose proof (formatNpmAuditOutput_fixable CSS_escape (innerAudit parsed) w
                (filter_isFixable_some _ Hsome)) as Hf.
  apply (f_equal snd) in Hf. rewrite Hv in Hf. cbn [snd] in Hf. injection Hf as ->.
  rewrite Hrun.
  unfold try_catch, writeReport, bind, resolvePath, writeFile, emit, throw, ret.
  rewrite Hset. cbn [cwd trace]. rewrite Hws, Hprefix. cbn [negb fst trace].
  repeat rewrite <- app_assoc. reflexivity.
Qed.

End ReportBlock.

Lemma run_without_output_path_witness :
  trace (fst (run CSS.escape auditHost world0))
  = [Debug (js "Setting working directory to " ++ dquote ++ js "/ws" ++ dquote ++ js ".");
     Chdir (js "/ws");
     Debug (js "Running npm audit " ++ ellipsis);
     Exec (js "npm audit --json ");
     Debug (js "[npm audit]: npm warn old lockfile");
     SetOutput (js "issues-total") (JsNumber (NInt 2));
     SetOutput (js "issues-fixable") (JsNumber (NInt 1));
     SetOutput (js "issues-unfixable") (JsNumber (NInt 1));
     Info (js "Found 1 fixable issues");
     SetOutput (js "markdown") JsUndefined].
Proof.
  destruct (run_without_output_path CSS.escape auditHost world0 false (js "/ws")
              (Audit (auditOf [(js "foo", foo); (js "tough-cookie", toughCookie)]))
              eq_refl eq_refl eq_refl eq_refl eq_refl eq_refl)
    as (v & Hv & Htrace).
  rewrite Htrace. specialize (Hv world0). vm_compute in Hv. injection Hv as <-.
  reflexivity.
Defined.

Lemma run_rejects_output_path_witness :
  trace (fst (run CSS.escape passwdHost world0))
  = [Debug (js "Setting working directory to " ++ dquote ++ js "/ws" ++ dquote ++ js ".");
     Chdir (js "/ws");
     Debug (js "Running npm audit fix" ++ ellipsis);
     Exec (js "npm audit --json fix");
     SetOutput (js "issues-total") (JsNumber (NInt 1));
     SetOutput (js "issues-fixable") (JsNumber (NInt 0));
     SetOutput (js "issues-unfixable") (JsNumber (NInt 1));
     Info (js "Found 0 fixable issues");
     SetOutput (js "markdown")
               (JsString (js "# Audit report" ++ nl
                             ++ js "No fixable problems found (1 unfixable)"));
     SetFailed (js "Invalid " ++ dquote ++ js "output-path" ++ dquote)].
Proof.
  destruct (run_rejects_output_path CSS.escape passwdHost world0 true (js "/ws")
              (Audit (auditOf [(js "foo", foo)]))
              eq_refl eq_refl eq_refl eq_refl eq_refl (js "/ws")
              eq_refl eq_refl eq_refl)
    as (v & Hv & Htrace).
  rewrite Htrace. specialize (Hv world0). vm_compute in Hv. injection Hv as <-.
  reflexivity.
Defined.

Lemma run_writes_report_witness :
  trace (fst (run CSS.escape unfixableReportHost wsWorld))
  = [Debug (js "Setting working directory to " ++ dquote ++ js "/ws/packages/app"
               ++ dquote ++ js ".");
     Chdir (js "/ws/packages/app");
     Debug (js "Running npm audit fix" ++ ellipsis);
     Exec (js "npm audit --json fix");
     SetOutput (js "issues-total") (JsNumber (NInt 1));
     SetOutput (js "issues-fixable") (JsNumber (NInt 0));
     SetOutput (js "issues-unfixable") (JsNumber (NInt 1));
     Info (js "Found 0 fixable issues");
     SetOutput (js "markdown")
               (JsString (js "# Audit report" ++ nl
                             ++ js "No fixable problems found (1 unfixable)"));
     WriteFile (js "/ws/pr-content.md")
               (js "# Audit report" ++ nl ++ js "No fixable problems found (1 unfixable)")].
Proof.
  apply (run_writes_report CSS.escape unfixableReportHost wsWorld true (js "packages/app")
           (Audit (auditOf [(js "foo", foo)]))
           eq_refl eq_refl eq_refl eq_refl eq_refl (js "/ws")
           eq_refl eq_refl eq_refl eq_refl eq_refl).
Defined.

Lemma run_cannot_write_fixable_report_witness :
  trace (fst (run CSS.escape reportHost world0))
  = [Debug (js "Setting working directory to " ++ dquote ++ js "/ws" ++ dquote ++ js ".");
     Chdir (js "/ws");
     Debug (js "Running npm audit fix" ++ ellipsis);
     Exec (js "npm audit --json fix");
     SetOutput (js "issues-total") (JsNumber (NInt 1));
     SetOutput (js "issues-fixable") (JsNumber (NInt 1));
     SetOutput (js "issues-unfixable") (JsNumber (NInt 0));
     Info (js "Found 1 fixable issues");
     SetOutput (js "markdown") JsUndefined;
     SetFailed (js "The " ++ dquote ++ js "data" ++ dquote
                   ++ js " argument must be of type string or an instance of Buffer, TypedArray, or DataView. Received undefined")].
Proof.
  apply (run_cannot_write_fixable_report CSS.escape reportHost world0 true (js "/ws")
           (Audit toughCookieAudit)
           eq_refl eq_refl eq_refl eq_refl eq_refl (js "/ws")
           eq_refl eq_refl eq_refl eq_refl).
Defined.

(** ** What [runNpmAudit] resolves with *)





(** ** The second copy of the functions *)

Section SecondCopy.

Variable CSS_escape : jsstring -> jsstring.
Variable host : Host.
Variable not_an_object : Error.

Lemma AuditThenFix_runNpmAudit_eq fix_ w :
  AuditThenFix.runNpmAudit host fix_ w
  = (mkWorld
       (trace w
        ++ [Debug (js "Running npm audit " ++ (if fix_ then js "fix" else []) ++ ellipsis);
            Exec (auditCommand fix_)]
        ++ (if ToBoolean (JsString (stderr (exec host (cwd w) (auditCommand fix_))))
            then [Debug (js "[npm audit]: "
                            ++ stderr (exec host (cwd w) (auditCommand fix_)))]
            else []))
       (cwd w),
     match error (exec host (cwd w) (auditCommand fix_)) with
     | Some e => inl e
     | None => inr (stdout (exec host (cwd w) (auditCommand fix_)))
     end).
Proof.
  unfold AuditThenFix.runNpmAudit, bind, emit, exec_await, ret, throw.
  cbn [trace cwd]. fold (auditCommand fix_).
  destruct (ToBoolean (JsString (stderr (exec host (cwd w) (auditCommand fix_)))));
    cbn [trace cwd];
    destruct (error (exec host (cwd w) (auditCommand fix_)));
    rewrite <- ?app_assoc; reflexivity.
Qed.

Lemma AuditThenFix_format_parsed json data w :
  JSON_parse host json = inr (Audit data) ->
  AuditThenFix.formatNpmAuditOutput CSS_escape host not_an_object json w
  = formatNpmAuditOutput CSS_escape data w.
Proof.
  intros Hparse.
  unfold AuditThenFix.formatNpmAuditOutput, AuditThenFix.vulnerabilities_values,
    formatNpmAuditOutput, bind, liftE, emit, ret.
  rewrite Hparse.
  change (fun v : Vulnerability.t =>
            ToBoolean match Vulnerability.fixAvailable v with
                      | Some x => x
                      | None => JsUndefined
                      end)
    with fixAvailable_truthy.
  rewrite <- filter_isFixable_truthy.
  destruct (filter isFixable (Object_values (NPMAudit.vulnerabilities data)));
    reflexivity.
Qed.

End SecondCopy.

(** X15: the two copies of [runNpmAudit] log the same lines and run the
    same command once; they reject with the same error, and where the
    second copy resolves with stdout, the first resolves with stdout cut
    by [slice] at the index of its first brace. *)
Theorem runNpmAudit_copies :
  forall host fix_ w,
    fst (runNpmAudit host fix_ w) = fst (AuditThenFix.runNpmAudit host fix_ w)
    /\ (forall e,
           snd (AuditThenFix.runNpmAudit host fix_ w) = inl e <->
           snd (runNpmAudit host fix_ w) = inl e)
    /\ (forall out,
           snd (AuditThenFix.runNpmAudit host fix_ w) = inr out ->
           out = stdout (exec host (cwd w) (auditCommand fix_))
           /\ snd (runNpmAudit host fix_ w) = inr (slice out (indexOf lbrace out))).
Proof.
  intros host fix_ w. rewrite runNpmAudit_eq, AuditThenFix_runNpmAudit_eq. cbn [fst snd].
  destruct (error (exec host (cwd w) (auditCommand fix_))) as [e0|].
  - split; [reflexivity|]. split.
    + intros e. split; intros H; exact H.
    + intros out H. discriminate.
  - split; [reflexivity|]. split.
    + intros e. split; discriminate.
    + intros out H. injection H as <-. split; reflexivity.
Qed.

Lemma runNpmAudit_copies_witness :
  snd (runNpmAudit (toolHost (mkExecResult None fixOutput [])) true world0)
  = inr (slice fixOutput (indexOf lbrace fixOutput)).
Proof.
  apply (proj2 (proj2 (runNpmAudit_copies (toolHost (mkExecResult None fixOutput []))
                         true world0)) fixOutput).
  reflexivity.
Defined.

(** X16: the second copy of [formatNpmAuditOutput] parses the text
    itself: on text that parses to an audit it does what the first copy
    does on that audit; on text that does not parse it throws the parse
    error, and on an envelope the [TypeError] of [Object.values], in both
    cases without logging anything. *)
Theorem formatNpmAuditOutput_copies :
  forall CSS_escape host not_an_object json w,
    (forall data,
        JSON_parse host json = inr (Audit data) ->
        AuditThenFix.formatNpmAuditOutput CSS_escape host not_an_object json w
        = formatNpmAuditOutput CSS_escape data w)
    /\ (forall e,
           JSON_parse host json = inl e ->
           AuditThenFix.formatNpmAuditOutput CSS_escape host not_an_object json w
           = (w, inl e))
    /\ (forall f,
           JSON_parse host json = inr (AuditFix f) ->
           AuditThenFix.formatNpmAuditOutput CSS_escape host not_an_object json w
           = (w, inl not_an_object)).
Proof.
  intros CSS_escape host not_an_object json w. split; [|split].
  - intros data Hparse. now apply AuditThenFix_format_parsed.
  - intros e Hparse. unfold AuditThenFix.formatNpmAuditOutput, bind, liftE, throw.
    now rewrite Hparse.
  - intros f Hparse.
    unfold AuditThenFix.formatNpmAuditOutput, AuditThenFix.vulnerabilities_values,
      bind, liftE, throw, ret.
    now rewrite Hparse.
Qed.

Lemma formatNpmAuditOutput_copies_witness :
  AuditThenFix.formatNpmAuditOutput CSS.escape auditHost notAnObject (js "{}") world0
  = formatNpmAuditOutput CSS.escape
      (auditOf [(js "foo", foo); (js "tough-cookie", toughCookie)]) world0.
Proof.
  apply (proj1 (formatNpmAuditOutput_copies CSS.escape auditHost notAnObject (js "{}")
                  world0)).
  reflexivity.
Defined.

Section SecondRun.

Variable CSS_escape : jsstring -> jsstring.
Variable host : Host.
Variable not_an_object : Error.
Variable w : World.
Variable fix_ : bool.
Variable wd : jsstring.
Variable data : NPMAudit.t.

Let resolvedWD := path_resolve host (cwd w) wd.
Let audited := exec host resolvedWD (auditCommand false).
Let fixed := exec host resolvedWD (auditCommand true).
Let outputPath := getInput host (js "output-path").

Hypothesis Hfix : getBooleanInput host (js "fix") = inr fix_.
Hypothesis Hwd :
  or_env (getInput host (js "working-directory")) (GITHUB_WORKSPACE host) = Some wd.
Hypothesis Hchdir : chdir_error host resolvedWD = None.
Hypothesis Hexec : error audited = None.
Hypothesis Hparse : JSON_parse host (stdout audited) = inr (Audit data).

(** From the markdown output on, what is left of the second [run]. *)
Lemma AuditThenFix_run_to_report :
  exists v,
    (forall w', snd (formatNpmAuditOutput CSS_escape data w') = inr v)
    /\ AuditThenFix.run CSS_escape host not_an_object w
       = try_catch
           (bind (AuditThenFix.writeReport host outputPath v)
                 (fun continue =>
                    if continue
                    then if fix_
                         then bind (AuditThenFix.runNpmAudit host true) (fun _ => ret tt)
                         else ret tt
                    else ret tt))
           (fun error => emit (SetFailed (message error)))
           (mkWorld
              (trace w ++ startupEvents resolvedWD false audited
               ++ [Info (js "Found "
                            ++ length_toString
                                 (filter isFixable
                                         (Object_values (NPMAudit.vulnerabilities data)))
                            ++ js " fixable issues");
                   SetOutput (js "markdown") v])
              resolvedWD).
Proof.
  destruct (formatNpmAuditOutput_eq CSS_escape data) as [v Hv].
  exists v. split; [intros w'; now rewrite Hv|].
  unfold AuditThenFix.run.
  rewrite (try_catch_bind _ _ _ w w fix_) by (unfold liftE; now rewrite Hfix).
  rewrite (try_catch_bind _ _ _ w w resolvedWD)
    by (unfold resolvePath; now rewrite Hwd).
  rewrite (try_catch_bind _ _ _ _ _ tt eq_refl).
  rewrite (try_catch_bind (chdir host resolvedWD) _ _ _
             (mkWorld ((trace w
                        ++ [Debug (js "Setting working directory to " ++ dquote
                                      ++ resolvedWD ++ dquote ++ js ".")])
                       ++ [Chdir resolvedWD])
                      resolvedWD) tt)
    by (unfold chdir; now rewrite Hchdir).
  erewrite try_catch_bind
    by (rewrite AuditThenFix_runNpmAudit_eq; cbn [trace cwd]; fold audited;
        rewrite Hexec; reflexivity).
  erewrite try_catch_bind
    by (rewrite (AuditThenFix_format_parsed CSS_escape host not_an_object _ data _ Hparse);
        apply Hv).
  rewrite (try_catch_bind _ _ _ _ _ tt eq_refl).
  cbn [trace cwd]. fold outputPath.
  unfold audited, resolvedWD.
  pose proof (startup_trace host w false wd) as Hstart. cbv iota in Hstart.
  rewrite Hstart. repeat rewrite <- app_assoc. reflexivity.
Qed.

(** X17: in the second copy, [run] audits without the fix, sets only
    the markdown output from that audit (no counters), and, with no
    output-path, runs the fix last when the [fix] input is true; a failure
    of the fix marks the run as failed after the output was set. *)
Theorem run_audits_then_fixes :
  outputPath = [] ->
  exists formattedOutput,
    (forall w', snd (formatNpmAuditOutput CSS_escape data w') = inr formattedOutput)
    /\ trace (fst (AuditThenFix.run CSS_escape host not_an_object w))
       = trace w ++ startupEvents resolvedWD false audited
         ++ [Info (js "Found "
                      ++ length_toString
                           (filter isFixable
                                   (Object_values (NPMAudit.vulnerabilities data)))
                      ++ js " fixable issues");
             SetOutput (js "markdown") formattedOutput]
         ++ fixEvents fix_ fixed.
Proof.
  intros Hnone. destruct AuditThenFix_run_to_report as (v & Hv & Hrun).
  exists v. split; [exact Hv|]. rewrite Hrun, Hnone.
  unfold try_catch, bind, AuditThenFix.writeReport, ret, emit, fixEvents.
  cbn [ToBoolean]. destruct fix_; [|cbn [fst trace]; now rewrite app_nil_r].
  rewrite AuditThenFix_runNpmAudit_eq. cbn [trace cwd fst]. fold fixed.
  destruct (stderr fixed); destruct (error fixed); cbn [ToBoolean fst trace];
    repeat rewrite <- app_assoc; reflexivity.
Qed.

(** X18: in the second copy, an output-path that fails the prefix test
    ends the run before the fix: the run is marked as failed with Invalid
    "output-path", nothing is written, and the fix command is not run
    even when the [fix] input is true. *)
Theorem run_rejected_path_skips_fix :
  forall ws,
    ToBoolean (JsString outputPath) = true ->
    GITHUB_WORKSPACE host = Some ws ->
    startsWith (path_resolve host resolvedWD outputPath) (path_resolve host resolvedWD ws)
    = false ->
    exists formattedOutput,
      (forall w', snd (formatNpmAuditOutput CSS_escape data w') = inr formattedOutput)
      /\ trace (fst (AuditThenFix.run CSS_escape host not_an_object w))
         = trace w ++ startupEvents resolvedWD false audited
           ++ [Info (js "Found "
                        ++ length_toString
                             (filter isFixable
                                     (Object_values (NPMAudit.vulnerabilities data)))
                        ++ js " fixable issues");
               SetOutput (js "markdown") formattedOutput;
               SetFailed (js "Invalid " ++ dquote ++ js "output-path" ++ dquote)].
Proof.
  intros ws Hset Hws Hprefix. destruct AuditThenFix_run_to_report as (v & Hv & Hrun).
  exists v. split; [exact Hv|]. rewrite Hrun.
  unfold try_catch, AuditThenFix.writeReport, resolvePath, ret, emit.
  rewrite Hset, Hws. unfold bind. cbn [cwd trace]. rewrite Hprefix.
  cbn [negb fst trace]. repeat rewrite <- app_assoc. reflexivity.
Qed.

End SecondRun.

Lemma run_audits_then_fixes_witness :
  trace (fst (AuditThenFix.run CSS.escape auditThenFixHost notAnObject world0))
  = [Debug (js "Setting working directory to " ++ dquote ++ js "/ws" ++ dquote ++ js ".");
     Chdir (js "/ws");
     Debug (js "Running npm audit " ++ ellipsis);
     Exec (js "npm audit --json ");
     Info (js "Found 1 fixable issues");
     SetOutput (js "markdown") JsUndefined;
     Debug (js "Running npm audit fix" ++ ellipsis);
     Exec (js "npm audit --json fix");
     Debug (js "[npm audit]: npm error code ERESOLVE");
     SetFailed (js "Command failed: npm audit --json fix")].
Proof.
  destruct (run_audits_then_fixes CSS.escape auditThenFixHost notAnObject world0 true
              (js "/ws") (auditOf [(js "foo", foo); (js "tough-cookie", toughCookie)])
              eq_refl eq_refl eq_refl eq_refl eq_refl eq_refl)
    as (v & Hv & Htrace).
  rewrite Htrace. specialize (Hv world0). vm_compute in Hv. injection Hv as <-.
  reflexivity.
Defined.

Lemma run_rejected_path_skips_fix_witness :
  trace (fst (AuditThenFix.run CSS.escape passwdHost notAnObject world0))
  = [Debug (js "Setting working directory to " ++ dquote ++ js "/ws" ++ dquote ++ js ".");
     Chdir (js "/ws");
     Debug (js "Running npm audit " ++ ellipsis);
     Exec (js "npm audit --json ");
     Info (js "Found 0 fixable issues");
     SetOutput (js "markdown")
               (JsString (js "# Audit report" ++ nl
                             ++ js "No fixable problems found (1 unfixable)"));
     SetFailed (js "Invalid " ++ dquote ++ js "output-path" ++ dquote)].
Proof.
  destruct (run_rejected_path_skips_fix CSS.escape passwdHost notAnObject world0 true
              (js "/ws") (auditOf [(js "foo", foo)])
              eq_refl eq_refl eq_refl eq_refl eq_refl (js "/ws") eq_refl eq_refl eq_refl)
    as (v & Hv & Htrace).
  rewrite Htrace. specialize (Hv world0). vm_compute in Hv. injection Hv as <-.
  reflexivity.
Defined.
